(** * libnetconf2: TLS client transport (session_client_tls.c)

    A shallow embedding of the client-side TLS option handling, the CRL
    verification callback and the three connection entry points, followed
    by the properties established about them.

    The C code works on two file-scope option structures and a role flag;
    here they live in an explicit machine state that every function
    threads through a small state monad.  OpenSSL, libyang and the rest of
    libnetconf2 are outside this file: their results are read from a
    [World] record and every call of interest is recorded in a trace. *)

From Stdlib Require Import ZArith List String Bool Lia.
Import ListNotations.
Open Scope string_scope.
Open Scope list_scope.
Open Scope Z_scope.

(** ** C strings held in heap-allocated fields *)

(** A [char *] field of the option structure: [NULL], a live copy made by
    [strdup], or a pointer whose block was passed to [free] and that was
    not overwritten afterwards. *)
Inductive c_str : Type :=
| NULL : c_str
| Str : string -> c_str
| Dangling : c_str.

Definition is_null (p : c_str) : bool :=
  match p with NULL => true | _ => false end.

(** [free(p)]: nothing for [NULL]; otherwise the block is released while
    the field keeps its old (now stale) address. *)
Definition free (p : c_str) : c_str :=
  match p with NULL => NULL | _ => Dangling end.

(** ** OpenSSL objects, as far as this file looks into them *)

Definition X509_NAME := string.
Definition ASN1_INTEGER := Z.
Definition ASN1_TIME := Z.
Definition EVP_PKEY := Z.

Record X509 : Type := mkX509 {
  subject_name : X509_NAME;
  issuer_name : X509_NAME;
  serialNumber : ASN1_INTEGER;
  pubkey : option EVP_PKEY
}.

Record X509_REVOKED : Type := mkRevoked {
  revoked_serialNumber : ASN1_INTEGER
}.

Record X509_CRL : Type := mkCRL {
  crl_issuer : X509_NAME;
  crl_nextUpdate : option ASN1_TIME;
  crl_revoked : list X509_REVOKED
}.

Inductive X509_LOOKUP_METHOD : Type :=
| X509_LOOKUP_file
| X509_LOOKUP_hash_dir.

(** A lookup registered on a store, with the directories added to it. *)
Record X509_LOOKUP : Type := mkLookup {
  lookup_method : X509_LOOKUP_METHOD;
  lookup_dirs : list c_str
}.

Record X509_STORE : Type := mkStore {
  cache : Z;
  store_lookups : list X509_LOOKUP
}.

Record X509_STORE_CTX : Type := mkStoreCtx {
  current_cert : X509;
  error : Z
}.

(** The verification callbacks this file can install. *)
Inductive verify_cb : Type :=
| cb_tlsauth_verify_callback.

Record SSL_CTX : Type := mkSSL_CTX {
  ctx_verify : option verify_cb;
  ctx_certificate : option c_str;
  ctx_private_key : option c_str;
  ctx_verify_locations : option (c_str * c_str)
}.

Record SSL : Type := mkSSL {
  ssl_ctx : SSL_CTX;
  ssl_fd : option Z;
  ssl_auto_retry : bool;
  init_finished : bool
}.

(** X.509 verification codes (openssl/x509_vfy.h). *)
Definition X509_V_OK : Z := 0.
Definition X509_V_ERR_CRL_SIGNATURE_FAILURE : Z := 8.
Definition X509_V_ERR_CRL_HAS_EXPIRED : Z := 12.
Definition X509_V_ERR_ERROR_IN_CRL_NEXT_UPDATE_FIELD : Z := 16.
Definition X509_V_ERR_CERT_REVOKED : Z := 23.

(** ** libnetconf2 objects *)

Definition ly_ctx := nat.

Inductive NC_STATUS : Type :=
| NC_STATUS_STARTING
| NC_STATUS_RUNNING.

Inductive NC_SIDE : Type :=
| NC_CLIENT.

Inductive NC_TRANSPORT_IMPL : Type :=
| NC_TI_NONE
| NC_TI_OPENSSL.

Record nc_session : Type := mkSession {
  status : NC_STATUS;
  side : NC_SIDE;
  ti_lock : bool;
  ti_type : NC_TRANSPORT_IMPL;
  ti_tls : option SSL;
  flags_sharedctx : bool;
  ctx : option ly_ctx;
  host : option string;
  port : Z;
  username : option string
}.

(** Default NETCONF-over-TLS port (netconf.h, RFC 7589). *)
Definition NC_PORT_TLS : Z := 6513.

(** [struct nc_client_tls_opts] (session_client.h), with the fields this
    file reads and writes. *)
Record nc_client_tls_opts : Type := mkOpts {
  cert_path : c_str;
  key_path : c_str;
  ca_file : c_str;
  ca_dir : c_str;
  tls_ctx_change : Z;
  tls_ctx : option SSL_CTX;
  crl_file : c_str;
  crl_dir : c_str;
  crl_store_change : Z;
  crl_store : option X509_STORE
}.

Definition set_cert_path v o :=
  mkOpts v (key_path o) (ca_file o) (ca_dir o) (tls_ctx_change o) (tls_ctx o)
         (crl_file o) (crl_dir o) (crl_store_change o) (crl_store o).
Definition set_key_path v o :=
  mkOpts (cert_path o) v (ca_file o) (ca_dir o) (tls_ctx_change o) (tls_ctx o)
         (crl_file o) (crl_dir o) (crl_store_change o) (crl_store o).
Definition set_ca_file v o :=
  mkOpts (cert_path o) (key_path o) v (ca_dir o) (tls_ctx_change o) (tls_ctx o)
         (crl_file o) (crl_dir o) (crl_store_change o) (crl_store o).
Definition set_ca_dir v o :=
  mkOpts (cert_path o) (key_path o) (ca_file o) v (tls_ctx_change o) (tls_ctx o)
         (crl_file o) (crl_dir o) (crl_store_change o) (crl_store o).
Definition set_tls_ctx_change v o :=
  mkOpts (cert_path o) (key_path o) (ca_file o) (ca_dir o) v (tls_ctx o)
         (crl_file o) (crl_dir o) (crl_store_change o) (crl_store o).
Definition set_tls_ctx v o :=
  mkOpts (cert_path o) (key_path o) (ca_file o) (ca_dir o) (tls_ctx_change o) v
         (crl_file o) (crl_dir o) (crl_store_change o) (crl_store o).
Definition set_crl_file v o :=
  mkOpts (cert_path o) (key_path o) (ca_file o) (ca_dir o) (tls_ctx_change o)
         (tls_ctx o) v (crl_dir o) (crl_store_change o) (crl_store o).
Definition set_crl_dir v o :=
  mkOpts (cert_path o) (key_path o) (ca_file o) (ca_dir o) (tls_ctx_change o)
         (tls_ctx o) (crl_file o) v (crl_store_change o) (crl_store o).
Definition set_crl_store_change v o :=
  mkOpts (cert_path o) (key_path o) (ca_file o) (ca_dir o) (tls_ctx_change o)
         (tls_ctx o) (crl_file o) (crl_dir o) v (crl_store o).
Definition set_crl_store v o :=
  mkOpts (cert_path o) (key_path o) (ca_file o) (ca_dir o) (tls_ctx_change o)
         (tls_ctx o) (crl_file o) (crl_dir o) (crl_store_change o) v.

(** ** Observable events *)

(** Messages of the logging macros (log.h).  [ERRARG] and [ERRMEM] carry
    the name of the reporting function. *)
Inductive log_msg : Type :=
| ERRARG : string -> log_msg
| ERRMEM : string -> log_msg
| ERR : string -> log_msg
| WRN : string -> log_msg
| VRB : string -> log_msg.

(** Calls into code outside this file that the properties talk about. *)
Inductive extern_call : Type :=
| c_SSL_CTX_free
| c_SSL_CTX_new
| c_X509_STORE_free
| c_X509_STORE_new
| c_X509_STORE_get_by_subject (name : X509_NAME)
| c_calloc
| c_malloc
| c_SSL_new
| c_SSL_free
| c_nc_sock_connect (h : string) (p : Z)
| c_close (sock : Z)
| c_SSL_connect
| c_ly_ctx_new
| c_nc_handshake
| c_nc_ctx_check_and_fill
| c_nc_session_free.

Inductive Event : Type :=
| Log : log_msg -> Event
| Call : extern_call -> Event.

Definition is_log (e : Event) : bool :=
  match e with Log _ => true | Call _ => false end.

(** The calls made so far, with the log lines dropped. *)
Definition calls (t : list Event) : list Event :=
  filter (fun e => negb (is_log e)) t.

(** ** Machine state and its monad *)

(** The two static option structures, the static role flag, the outcomes
    of the allocations still to come ([true]: the allocation succeeds; an
    exhausted list stands for a heap that never fails), and the trace. *)
Record Machine : Type := mkMachine {
  tls_opts : nc_client_tls_opts;
  tls_ch_opts : nc_client_tls_opts;
  tlsauth_ch : Z;
  heap : list bool;
  trace : list Event
}.

Definition M (A : Type) : Type := Machine -> A * Machine.

Definition ret {A} (a : A) : M A := fun s => (a, s).

Definition bind {A B} (m : M A) (k : A -> M B) : M B :=
  fun s => let (a, s') := m s in k a s'.

Notation "x <- m ;; k" := (bind m (fun x => k))
  (at level 61, m at next level, right associativity).
Notation "m ;;; k" := (bind m (fun _ => k))
  (at level 61, right associativity).

(** Which of the two static structures a [struct nc_client_tls_opts *]
    argument points to. *)
Inductive opts_ref : Type :=
| ref_tls_opts
| ref_tls_ch_opts.

Definition read_opts (p : opts_ref) (s : Machine) : nc_client_tls_opts :=
  match p with
  | ref_tls_opts => tls_opts s
  | ref_tls_ch_opts => tls_ch_opts s
  end.

Definition get_opts (p : opts_ref) : M nc_client_tls_opts :=
  fun s => (read_opts p s, s).

Definition modify_opts (p : opts_ref)
    (f : nc_client_tls_opts -> nc_client_tls_opts) : M unit :=
  fun s =>
    match p with
    | ref_tls_opts =>
        (tt, mkMachine (f (tls_opts s)) (tls_ch_opts s) (tlsauth_ch s)
                       (heap s) (trace s))
    | ref_tls_ch_opts =>
        (tt, mkMachine (tls_opts s) (f (tls_ch_opts s)) (tlsauth_ch s)
                       (heap s) (trace s))
    end.

Definition get_tlsauth_ch : M Z := fun s => (tlsauth_ch s, s).

Definition set_tlsauth_ch (v : Z) : M unit :=
  fun s => (tt, mkMachine (tls_opts s) (tls_ch_opts s) v (heap s) (trace s)).

Definition emit (e : Event) : M unit :=
  fun s => (tt, mkMachine (tls_opts s) (tls_ch_opts s) (tlsauth_ch s)
                          (heap s) (trace s ++ [e])).

Definition log (m : log_msg) : M unit := emit (Log m).
Definition call (c : extern_call) : M unit := emit (Call c).

(** One allocation request: consumes the next outcome of the heap. *)
Definition alloc : M bool :=
  fun s =>
    match heap s with
    | [] => (true, s)
    | b :: h =>
        (b, mkMachine (tls_opts s) (tls_ch_opts s) (tlsauth_ch s) h (trace s))
    end.

(** [strdup(str)] for a non-NULL argument. *)
Definition strdup (str : string) : M c_str :=
  ok <- alloc ;;
  ret (if ok then Str str else NULL).

(** ** Path setters *)

Definition _nc_client_tls_set_cert_key_paths
    (client_cert client_key : option string) (opts : opts_ref) : M Z :=
  match client_cert with
  | None =>
      log (ERRARG "_nc_client_tls_set_cert_key_paths") ;;;
      ret (-1)
  | Some cert =>
      modify_opts opts (fun o => set_cert_path (free (cert_path o)) o) ;;;
      modify_opts opts (fun o => set_key_path (free (key_path o)) o) ;;;
      dup <- strdup cert ;;
      modify_opts opts (set_cert_path dup) ;;;
      o <- get_opts opts ;;
      if is_null (cert_path o) then
        log (ERRMEM "_nc_client_tls_set_cert_key_paths") ;;;
        ret (-1)
      else
        rc <- match client_key with
              | Some key =>
                  dup <- strdup key ;;
                  modify_opts opts (set_key_path dup) ;;;
                  o <- get_opts opts ;;
                  (* the source tests cert_path here, not key_path *)
                  if is_null (cert_path o) then
                    log (ERRMEM "_nc_client_tls_set_cert_key_paths") ;;;
                    ret (-1)
                  else ret 0
              | None =>
                  modify_opts opts (set_key_path NULL) ;;;
                  ret 0
              end ;;
        if rc =? 0 then
          modify_opts opts (set_tls_ctx_change 1) ;;;
          ret 0
        else ret rc
  end.

Definition nc_client_tls_set_cert_key_paths client_cert client_key : M Z :=
  _nc_client_tls_set_cert_key_paths client_cert client_key ref_tls_opts.

Definition nc_client_tls_ch_set_cert_key_paths client_cert client_key : M Z :=
  _nc_client_tls_set_cert_key_paths client_cert client_key ref_tls_ch_opts.

Definition _nc_client_tls_set_trusted_ca_paths
    (ca_file_arg ca_dir_arg : option string) (opts : opts_ref) : M Z :=
  match ca_file_arg, ca_dir_arg with
  | None, None =>
      log (ERRARG "_nc_client_tls_set_trusted_ca_paths") ;;;
      ret (-1)
  | _, _ =>
      modify_opts opts (fun o => set_ca_file (free (ca_file o)) o) ;;;
      modify_opts opts (fun o => set_ca_dir (free (ca_dir o)) o) ;;;
      rc <- match ca_file_arg with
            | Some f =>
                dup <- strdup f ;;
                modify_opts opts (set_ca_file dup) ;;;
                o <- get_opts opts ;;
                if is_null (ca_file o) then
                  log (ERRMEM "_nc_client_tls_set_trusted_ca_paths") ;;;
                  ret (-1)
                else ret 0
            | None =>
                modify_opts opts (set_ca_file NULL) ;;;
                ret 0
            end ;;
      if negb (rc =? 0) then ret rc else
      rc <- match ca_dir_arg with
            | Some d =>
                dup <- strdup d ;;
                modify_opts opts (set_ca_dir dup) ;;;
                o <- get_opts opts ;;
                if is_null (ca_dir o) then
                  log (ERRMEM "_nc_client_tls_set_trusted_ca_paths") ;;;
                  ret (-1)
                else ret 0
            | None =>
                modify_opts opts (set_ca_dir NULL) ;;;
                ret 0
            end ;;
      if negb (rc =? 0) then ret rc else
      modify_opts opts (set_tls_ctx_change 1) ;;;
      ret 0
  end.

Definition nc_client_tls_set_trusted_ca_paths ca_file_arg ca_dir_arg : M Z :=
  _nc_client_tls_set_trusted_ca_paths ca_file_arg ca_dir_arg ref_tls_opts.

Definition nc_client_tls_ch_set_trusted_ca_paths ca_file_arg ca_dir_arg : M Z :=
  _nc_client_tls_set_trusted_ca_paths ca_file_arg ca_dir_arg ref_tls_ch_opts.

Definition _nc_client_tls_set_crl_paths
    (crl_file_arg crl_dir_arg : option string) (opts : opts_ref) : M Z :=
  match crl_file_arg, crl_dir_arg with
  | None, None =>
      log (ERRARG "_nc_client_tls_set_crl_paths") ;;;
      ret (-1)
  | _, _ =>
      modify_opts opts (fun o => set_crl_file (free (crl_file o)) o) ;;;
      modify_opts opts (fun o => set_crl_dir (free (crl_dir o)) o) ;;;
      rc <- match crl_file_arg with
            | Some f =>
                dup <- strdup f ;;
                modify_opts opts (set_crl_file dup) ;;;
                o <- get_opts opts ;;
                if is_null (crl_file o) then
                  log (ERRMEM "_nc_client_tls_set_crl_paths") ;;;
                  ret (-1)
                else ret 0
            | None =>
                modify_opts opts (set_crl_file NULL) ;;;
                ret 0
            end ;;
      if negb (rc =? 0) then ret rc else
      rc <- match crl_dir_arg with
            | Some d =>
                dup <- strdup d ;;
                modify_opts opts (set_crl_dir dup) ;;;
                o <- get_opts opts ;;
                if is_null (crl_dir o) then
                  log (ERRMEM "_nc_client_tls_set_crl_paths") ;;;
                  ret (-1)
                else ret 0
            | None =>
                modify_opts opts (set_crl_dir NULL) ;;;
                ret 0
            end ;;
      if negb (rc =? 0) then ret rc else
      modify_opts opts (set_crl_store_change 1) ;;;
      ret 0
  end.

Definition nc_client_tls_set_crl_paths crl_file_arg crl_dir_arg : M Z :=
  _nc_client_tls_set_crl_paths crl_file_arg crl_dir_arg ref_tls_opts.

Definition nc_client_tls_ch_set_crl_paths crl_file_arg crl_dir_arg : M Z :=
  _nc_client_tls_set_crl_paths crl_file_arg crl_dir_arg ref_tls_ch_opts.

(** ** Path getters *)

(** A [const char **] output argument: [None] for a NULL pointer, else
    the value held by the variable it points to.  The getters return the
    two arguments as they are after the call. *)
Definition out_slot : Type := option c_str.

(** [*slot = v] for a non-NULL [slot]. *)
Definition store_slot (slot : out_slot) (v : c_str) : out_slot :=
  match slot with
  | Some _ => Some v
  | None => None
  end.

Definition _nc_client_tls_get_cert_key_paths
    (client_cert client_key : out_slot) (opts : opts_ref)
  : M (out_slot * out_slot) :=
  match client_cert, client_key with
  | None, None =>
      log (ERRARG "_nc_client_tls_get_cert_key_paths") ;;;
      ret (client_cert, client_key)
  | _, _ =>
      o <- get_opts opts ;;
      let client_cert := store_slot client_cert (cert_path o) in
      let client_key := store_slot client_key (key_path o) in
      ret (client_cert, client_key)
  end.

Definition nc_client_tls_get_cert_key_paths client_cert client_key :=
  _nc_client_tls_get_cert_key_paths client_cert client_key ref_tls_opts.

Definition nc_client_tls_ch_get_cert_key_paths client_cert client_key :=
  _nc_client_tls_get_cert_key_paths client_cert client_key ref_tls_ch_opts.

Definition _nc_client_tls_get_trusted_ca_paths
    (ca_file_arg ca_dir_arg : out_slot) (opts : opts_ref)
  : M (out_slot * out_slot) :=
  match ca_file_arg, ca_dir_arg with
  | None, None =>
      log (ERRARG "_nc_client_tls_get_trusted_ca_paths") ;;;
      ret (ca_file_arg, ca_dir_arg)
  | _, _ =>
      o <- get_opts opts ;;
      let ca_file_arg := store_slot ca_file_arg (ca_file o) in
      let ca_dir_arg := store_slot ca_dir_arg (ca_dir o) in
      ret (ca_file_arg, ca_dir_arg)
  end.

Definition nc_client_tls_get_trusted_ca_paths ca_file_arg ca_dir_arg :=
  _nc_client_tls_get_trusted_ca_paths ca_file_arg ca_dir_arg ref_tls_opts.

Definition nc_client_tls_ch_get_trusted_ca_paths ca_file_arg ca_dir_arg :=
  _nc_client_tls_get_trusted_ca_paths ca_file_arg ca_dir_arg ref_tls_ch_opts.

Definition _nc_client_tls_get_crl_paths
    (crl_file_arg crl_dir_arg : out_slot) (opts : opts_ref)
  : M (out_slot * out_slot) :=
  match crl_file_arg, crl_dir_arg with
  | None, None =>
      log (ERRARG "_nc_client_tls_get_crl_paths") ;;;
      ret (crl_file_arg, crl_dir_arg)
  | _, _ =>
      o <- get_opts opts ;;
      let crl_file_arg := store_slot crl_file_arg (crl_file o) in
      let crl_dir_arg := store_slot crl_dir_arg (crl_dir o) in
      ret (crl_file_arg, crl_dir_arg)
  end.

Definition nc_client_tls_get_crl_paths crl_file_arg crl_dir_arg :=
  _nc_client_tls_get_crl_paths crl_file_arg crl_dir_arg ref_tls_opts.

Definition nc_client_tls_ch_get_crl_paths crl_file_arg crl_dir_arg :=
  _nc_client_tls_get_crl_paths crl_file_arg crl_dir_arg ref_tls_ch_opts.

(** ** The world outside this file *)

(** Results of the OpenSSL, libyang and libnetconf2 functions this file
    calls.  They are not defined here, so the embedding is parametric in
    them. *)
Record World : Type := mkWorld {
  (* verification callback *)
  X509_STORE_get_by_subject : X509_STORE -> X509_NAME -> Z * option X509_CRL;
  X509_CRL_verify : X509_CRL -> option EVP_PKEY -> Z;
  current_time : ASN1_TIME;
  (* context and store construction *)
  SSL_CTX_new_ok : bool;
  SSL_CTX_use_certificate_file : c_str -> Z;
  SSL_CTX_use_PrivateKey_file : c_str -> Z;
  SSL_CTX_load_verify_locations : c_str -> c_str -> Z;
  X509_STORE_new_ok : bool;
  X509_STORE_add_lookup_ok : X509_LOOKUP_METHOD -> bool;
  X509_LOOKUP_add_dir : X509_LOOKUP_METHOD -> c_str -> Z;
  (* session establishment *)
  SSL_new_ok : bool;
  nc_sock_connect : string -> Z -> Z;
  SSL_connect : SSL -> Z;
  SSL_get_verify_result : SSL -> Z;
  ly_ctx_new : option ly_ctx;
  nc_handshake : nc_session -> Z;
  nc_ctx_check_and_fill : nc_session -> Z
}.

(** The same world with another aggregate verification verdict. *)
Definition with_verify_result (v : Z) (W : World) : World :=
  mkWorld (X509_STORE_get_by_subject W) (X509_CRL_verify W) (current_time W)
          (SSL_CTX_new_ok W) (SSL_CTX_use_certificate_file W)
          (SSL_CTX_use_PrivateKey_file W) (SSL_CTX_load_verify_locations W)
          (X509_STORE_new_ok W) (X509_STORE_add_lookup_ok W)
          (X509_LOOKUP_add_dir W) (SSL_new_ok W) (nc_sock_connect W)
          (SSL_connect W) (fun _ => v) (ly_ctx_new W) (nc_handshake W)
          (nc_ctx_check_and_fill W).

(** Modelled from the spec: OpenSSL's [X509_cmp_current_time] is not part
    of this file; timestamps are compared with the current time, the
    result being negative exactly when the timestamp lies in the past
    ("require current time <= next-update timestamp; expired -> reject"). *)
Definition X509_cmp_current_time (W : World) (t : ASN1_TIME) : Z :=
  match Z.compare t (current_time W) with
  | Lt => -1
  | Eq => 0
  | Gt => 1
  end.

Definition ASN1_INTEGER_cmp (a b : ASN1_INTEGER) : Z :=
  match Z.compare a b with
  | Lt => -1
  | Eq => 0
  | Gt => 1
  end.

(** ** Verification callback *)

(** The [for] loop over the revoked entries of a CRL: [true] as soon as
    an entry carries the serial number of the certificate. *)
Fixpoint revoked_scan (entries : list X509_REVOKED) (cert : X509) : bool :=
  match entries with
  | [] => false
  | revoked :: rest =>
      if ASN1_INTEGER_cmp (revoked_serialNumber revoked) (serialNumber cert) =? 0
      then true
      else revoked_scan rest cert
  end.

Definition X509_STORE_CTX_set_error (x : X509_STORE_CTX) (e : Z) :=
  mkStoreCtx (current_cert x) e.

Section Program.

Variable W : World.

Definition tlsauth_verify_callback (preverify_ok : Z)
    (x509_ctx : X509_STORE_CTX) : M (Z * X509_STORE_CTX) :=
  if preverify_ok =? 0 then ret (0, x509_ctx) else
  ch <- get_tlsauth_ch ;;
  opts <- get_opts (if negb (ch =? 0) then ref_tls_ch_opts else ref_tls_opts) ;;
  match crl_store opts with
  | None =>
      (* nothing to check *)
      ret (1, x509_ctx)
  | Some store =>
      let cert := current_cert x509_ctx in
      let subject := subject_name cert in
      let issuer := issuer_name cert in
      (* the CRL of the _subject_: integrity of that CRL *)
      call (c_X509_STORE_get_by_subject subject) ;;;
      let (rc, crl) := X509_STORE_get_by_subject W store subject in
      let check_issuer : M (Z * X509_STORE_CTX) :=
        (* the CRL of the _issuer_: revocation of the certificate *)
        call (c_X509_STORE_get_by_subject issuer) ;;;
        let (rc, crl) := X509_STORE_get_by_subject W store issuer in
        match (0 <? rc), crl with
        | true, Some crl =>
            if revoked_scan (crl_revoked crl) cert then
              log (ERR "Certificate revoked!") ;;;
              ret (0, X509_STORE_CTX_set_error x509_ctx X509_V_ERR_CERT_REVOKED)
            else ret (1, x509_ctx)
        | _, _ => ret (1, x509_ctx)
        end in
      match (0 <? rc), crl with
      | true, Some crl =>
          let next_update := crl_nextUpdate crl in
          if X509_CRL_verify W crl (pubkey cert) <=? 0 then
            ret (0, X509_STORE_CTX_set_error x509_ctx
                      X509_V_ERR_CRL_SIGNATURE_FAILURE)
          else
            match next_update with
            | None =>
                ret (0, X509_STORE_CTX_set_error x509_ctx
                          X509_V_ERR_ERROR_IN_CRL_NEXT_UPDATE_FIELD)
            | Some next_update =>
                if X509_cmp_current_time W next_update <? 0 then
                  ret (0, X509_STORE_CTX_set_error x509_ctx
                            X509_V_ERR_CRL_HAS_EXPIRED)
                else check_issuer
            end
      | _, _ => check_issuer
      end
  end.

(** ** Building the SSL context and the CRL store *)

Definition ctx_set_verify cb (c : SSL_CTX) :=
  mkSSL_CTX (Some cb) (ctx_certificate c) (ctx_private_key c)
            (ctx_verify_locations c).
Definition ctx_set_certificate p (c : SSL_CTX) :=
  mkSSL_CTX (ctx_verify c) (Some p) (ctx_private_key c)
            (ctx_verify_locations c).
Definition ctx_set_private_key p (c : SSL_CTX) :=
  mkSSL_CTX (ctx_verify c) (ctx_certificate c) (Some p)
            (ctx_verify_locations c).
Definition ctx_set_verify_locations f d (c : SSL_CTX) :=
  mkSSL_CTX (ctx_verify c) (ctx_certificate c) (ctx_private_key c)
            (Some (f, d)).

(** [SSL_CTX_new(TLSv1_2_client_method())]. *)
Definition SSL_CTX_new : M (option SSL_CTX) :=
  call c_SSL_CTX_new ;;;
  ret (if SSL_CTX_new_ok W then Some (mkSSL_CTX None None None None)
       else None).

(** [X509_STORE_new()]. *)
Definition X509_STORE_new : M (option X509_STORE) :=
  call c_X509_STORE_new ;;;
  ret (if X509_STORE_new_ok W then Some (mkStore 1 []) else None).

Definition store_set_cache v (st : X509_STORE) :=
  mkStore v (store_lookups st).
Definition store_add_lookup l (st : X509_STORE) :=
  mkStore (cache st) (store_lookups st ++ [l]).

(** Applies [f] to the object a non-NULL [opts->tls_ctx] points to. *)
Definition modify_tls_ctx (opts : opts_ref) (f : SSL_CTX -> SSL_CTX)
  : M unit :=
  modify_opts opts (fun o => set_tls_ctx (option_map f (tls_ctx o)) o).

(** Applies [f] to the object a non-NULL [opts->crl_store] points to. *)
Definition modify_crl_store (opts : opts_ref) (f : X509_STORE -> X509_STORE)
  : M unit :=
  modify_opts opts (fun o => set_crl_store (option_map f (crl_store o)) o).

Definition nc_client_tls_update_opts (opts : opts_ref) : M Z :=
  let update_crl_store : M Z :=
    o <- get_opts opts ;;
    if negb (crl_store_change o =? 0)
       || (match crl_store o with None => true | Some _ => false end
           && (negb (is_null (crl_file o)) || negb (is_null (crl_dir o))))
    then
      (* set the revocation store with the correct paths for the callback *)
      call c_X509_STORE_free ;;;
      st <- X509_STORE_new ;;
      modify_opts opts (set_crl_store st) ;;;
      match st with
      | None =>
          log (ERR "Unable to create a certificate store (%s).") ;;;
          ret (-1)
      | Some _ =>
          modify_crl_store opts (store_set_cache 0) ;;;
          rc <- (if negb (is_null (crl_file o)) then
                   if negb (X509_STORE_add_lookup_ok W X509_LOOKUP_file) then
                     log (ERR "Failed to add lookup method to CRL checking.") ;;;
                     ret (-1)
                   else if negb (X509_LOOKUP_add_dir W X509_LOOKUP_file
                                   (crl_file o) =? 1) then
                     modify_crl_store opts
                       (store_add_lookup (mkLookup X509_LOOKUP_file [])) ;;;
                     log (ERR "Failed to add the revocation lookup file %s.") ;;;
                     ret (-1)
                   else
                     modify_crl_store opts
                       (store_add_lookup
                          (mkLookup X509_LOOKUP_file [crl_file o])) ;;;
                     ret 0
                 else ret 0) ;;
          if negb (rc =? 0) then ret rc else
          if negb (is_null (crl_dir o)) then
            if negb (X509_STORE_add_lookup_ok W X509_LOOKUP_hash_dir) then
              log (ERR "Failed to add lookup method to CRL checking.") ;;;
              ret (-1)
            else if negb (X509_LOOKUP_add_dir W X509_LOOKUP_hash_dir
                            (crl_dir o) =? 1) then
              modify_crl_store opts
                (store_add_lookup (mkLookup X509_LOOKUP_hash_dir [])) ;;;
              log (ERR "Failed to add the revocation lookup directory %s.") ;;;
              ret (-1)
            else
              modify_crl_store opts
                (store_add_lookup
                   (mkLookup X509_LOOKUP_hash_dir [crl_dir o])) ;;;
              ret 0
          else ret 0
      end
    else ret 0 in
  o <- get_opts opts ;;
  if match tls_ctx o with None => true | Some _ => false end
     || negb (tls_ctx_change o =? 0)
  then
    call c_SSL_CTX_free ;;;
    (* prepare global SSL context, allow only mandatory TLS 1.2 *)
    c <- SSL_CTX_new ;;
    modify_opts opts (set_tls_ctx c) ;;;
    match c with
    | None =>
        log (ERR "Unable to create OpenSSL context (%s).") ;;;
        ret (-1)
    | Some _ =>
        modify_tls_ctx opts (ctx_set_verify cb_tlsauth_verify_callback) ;;;
        (* get peer certificate *)
        if negb (SSL_CTX_use_certificate_file W (cert_path o) =? 1) then
          log (ERR "Loading the client certificate from '%s' failed (%s).") ;;;
          ret (-1)
        else
          modify_tls_ctx opts (ctx_set_certificate (cert_path o)) ;;;
          (* if the file with private key not specified, expect that the
             private key is stored with the certificate *)
          let key := if is_null (key_path o) then cert_path o
                     else key_path o in
          if negb (SSL_CTX_use_PrivateKey_file W key =? 1) then
            log (ERR "Loading the client priavte key from '%s' failed (%s).") ;;;
            ret (-1)
          else
            modify_tls_ctx opts (ctx_set_private_key key) ;;;
            if SSL_CTX_load_verify_locations W (ca_file o) (ca_dir o) =? 0
            then
              log (ERR
                "Failed to load the locations of trusted CA certificates (%s).") ;;;
              ret (-1)
            else
              modify_tls_ctx opts
                (ctx_set_verify_locations (ca_file o) (ca_dir o)) ;;;
              update_crl_store
    end
  else update_crl_store.

(** ** Session establishment *)

Definition session_set_status v (s : nc_session) :=
  mkSession v (side s) (ti_lock s) (ti_type s) (ti_tls s) (flags_sharedctx s)
            (ctx s) (host s) (port s) (username s).
Definition session_set_transport l ty tls (s : nc_session) :=
  mkSession (status s) (side s) l ty tls (flags_sharedctx s)
            (ctx s) (host s) (port s) (username s).
Definition session_set_ctx shared c (s : nc_session) :=
  mkSession (status s) (side s) (ti_lock s) (ti_type s) (ti_tls s) shared
            c (host s) (port s) (username s).
Definition session_set_peer h p u (s : nc_session) :=
  mkSession (status s) (side s) (ti_lock s) (ti_type s) (ti_tls s)
            (flags_sharedctx s) (ctx s) h p u.

(** The session right after [calloc] and the assignments of [status] and
    [side]: everything else is zero. *)
Definition session_zero : nc_session :=
  mkSession NC_STATUS_STARTING NC_CLIENT false NC_TI_NONE None false None
            None 0 None.

(** [SSL_new(ctx)]: a fresh, unconnected handle, or NULL. *)
Definition SSL_new (c : option SSL_CTX) : M (option SSL) :=
  call c_SSL_new ;;;
  ret (match c with
       | Some c => if SSL_new_ok W then Some (mkSSL c None false false)
                   else None
       | None => None
       end).

Definition SSL_set_fd (tls : SSL) (sock : Z) :=
  mkSSL (ssl_ctx tls) (Some sock) (ssl_auto_retry tls) (init_finished tls).
Definition SSL_set_mode_AUTO_RETRY (tls : SSL) :=
  mkSSL (ssl_ctx tls) (ssl_fd tls) true (init_finished tls).

(** [SSL_connect(tls)]: the result comes from the world; the handle has
    finished its handshake exactly when the result is 1. *)
Definition do_SSL_connect (tls : SSL) : M (Z * SSL) :=
  call c_SSL_connect ;;;
  let r := SSL_connect W tls in
  ret (r, mkSSL (ssl_ctx tls) (ssl_fd tls) (ssl_auto_retry tls) (r =? 1)).

Definition SSL_is_init_finished (tls : SSL) : bool := init_finished tls.

(** The [switch (verify)] after the handshake: a log line either way. *)
Definition log_verify_result (verify : Z) : M unit :=
  if verify =? X509_V_OK
  then log (VRB "Server certificate successfully verified.")
  else log (WRN "Server certificate verification problem (%s).").

(** The common tail of the two connect functions, from the assignment of
    the libyang context to the filled session; [fail] is the [goto fail]
    target. *)
Definition session_handshake (session : nc_session) (ctx_arg : option ly_ctx)
    (fail : M (option nc_session)) (k : nc_session -> M (option nc_session))
  : M (option nc_session) :=
  (* assign context (dictionary needed for handshake) *)
  session <- match ctx_arg with
             | None =>
                 call c_ly_ctx_new ;;;
                 ret (session_set_ctx (flags_sharedctx session)
                        (ly_ctx_new W) session)
             | Some c => ret (session_set_ctx true (Some c) session)
             end ;;
  (* NETCONF handshake *)
  call c_nc_handshake ;;;
  if negb (nc_handshake W session =? 0) then fail else
  let session := session_set_status NC_STATUS_RUNNING session in
  call c_nc_ctx_check_and_fill ;;;
  if nc_ctx_check_and_fill W session =? -1 then fail else
  k session.

Definition nc_connect_tls (host_arg : option string) (port_arg : Z)
    (ctx_arg : option ly_ctx) : M (option nc_session) :=
  o <- get_opts ref_tls_opts ;;
  if is_null (cert_path o) || (is_null (ca_file o) && is_null (ca_dir o)) then
    log (ERRARG "nc_connect_tls") ;;;
    ret None
  else
  (* process parameters *)
  let host_arg := match host_arg with
                  | None => "localhost"
                  | Some h => if String.eqb h "" then "localhost" else h
                  end in
  let port_arg := if port_arg =? 0 then NC_PORT_TLS else port_arg in
  (* create/update TLS structures *)
  rc <- nc_client_tls_update_opts ref_tls_opts ;;
  if negb (rc =? 0) then ret None else
  (* prepare session structure *)
  call c_calloc ;;;
  ok <- alloc ;;
  if negb ok then
    log (ERRMEM "nc_connect_tls") ;;;
    ret None
  else
  let session := session_zero in
  let fail : M (option nc_session) :=
    call c_nc_session_free ;;;
    ret None in
  (* transport lock *)
  call c_malloc ;;;
  ok <- alloc ;;
  if negb ok then
    log (ERRMEM "nc_connect_tls") ;;;
    fail
  else
  (* fill the session *)
  o <- get_opts ref_tls_opts ;;
  tls <- SSL_new (tls_ctx o) ;;
  let session := session_set_transport true NC_TI_OPENSSL tls session in
  match tls with
  | None =>
      log (ERR "Failed to create a new TLS session structure (%s).") ;;;
      fail
  | Some tls =>
      (* create and assign socket *)
      call (c_nc_sock_connect host_arg port_arg) ;;;
      let sock := nc_sock_connect W host_arg port_arg in
      if sock =? -1 then fail else
      let tls := SSL_set_mode_AUTO_RETRY (SSL_set_fd tls sock) in
      (* connect and perform the handshake *)
      set_tlsauth_ch 0 ;;;
      r <- do_SSL_connect tls ;;
      let (rc, tls) := r in
      let session := session_set_transport true NC_TI_OPENSSL (Some tls)
                       session in
      if negb (rc =? 1) then
        log (ERR "Connecting over TLS failed (%s).") ;;;
        fail
      else
      (* check certificate verification result *)
      log_verify_result (SSL_get_verify_result W tls) ;;;
      session_handshake session ctx_arg fail (fun session =>
        (* store information into session and the dictionary *)
        ret (Some (session_set_peer (Some host_arg) port_arg
                     (Some "certificate-based") session)))
  end.

Definition nc_connect_libssl (tls : option SSL) (ctx_arg : option ly_ctx)
  : M (option nc_session) :=
  (* check TLS session status *)
  if match tls with
     | None => true
     | Some t => negb (SSL_is_init_finished t)
     end
  then
    log (ERR "Supplied TLS session is not fully connected!") ;;;
    ret None
  else
  (* prepare session structure *)
  call c_calloc ;;;
  ok <- alloc ;;
  if negb ok then
    log (ERRMEM "nc_connect_libssl") ;;;
    ret None
  else
  let session := session_zero in
  let fail : M (option nc_session) :=
    call c_nc_session_free ;;;
    ret None in
  (* transport lock *)
  call c_malloc ;;;
  ok <- alloc ;;
  if negb ok then
    log (ERRMEM "nc_connect_libssl") ;;;
    fail
  else
  let session := session_set_transport true NC_TI_OPENSSL tls session in
  session_handshake session ctx_arg fail (fun session => ret (Some session)).

Definition nc_accept_callhome_tls_sock (sock : Z) (host_arg : option string)
    (port_arg : Z) (ctx_arg : option ly_ctx) : M (option nc_session) :=
  rc <- nc_client_tls_update_opts ref_tls_ch_opts ;;
  if negb (rc =? 0) then
    call (c_close sock) ;;;
    ret None
  else
  o <- get_opts ref_tls_ch_opts ;;
  tls <- SSL_new (tls_ctx o) ;;
  match tls with
  | None =>
      log (ERR "Failed to create new TLS session structure (%s).") ;;;
      call (c_close sock) ;;;
      ret None
  | Some tls =>
      let tls := SSL_set_mode_AUTO_RETRY (SSL_set_fd tls sock) in
      (* connect and perform the handshake *)
      set_tlsauth_ch 1 ;;;
      r <- do_SSL_connect tls ;;
      let (rc, tls) := r in
      if negb (rc =? 1) then
        log (ERR "Connecting over TLS failed (%s).") ;;;
        call c_SSL_free ;;;
        ret None
      else
      (* check certificate verification result *)
      log_verify_result (SSL_get_verify_result W tls) ;;;
      session <- nc_connect_libssl (Some tls) ctx_arg ;;
      match session with
      | Some session =>
          (* store information into session and the dictionary *)
          ret (Some (session_set_peer host_arg port_arg
                       (Some "certificate-based") session))
      | None => ret None
      end
  end.

End Program.

(** ** Vocabulary of the statements *)

(** The structure the callback consults: selected by the role flag. *)
Definition active_opts (s : Machine) : nc_client_tls_opts :=
  read_opts (if negb (tlsauth_ch s =? 0) then ref_tls_ch_opts
             else ref_tls_opts) s.

Definition other_ref (p : opts_ref) : opts_ref :=
  match p with
  | ref_tls_opts => ref_tls_ch_opts
  | ref_tls_ch_opts => ref_tls_opts
  end.

(** Everything of the trust configuration that the certificate/key setter
    has no business with, the dirty flag of the context apart. *)
Definition same_outside_cert_key (o o' : nc_client_tls_opts) : Prop :=
  ca_file o' = ca_file o /\ ca_dir o' = ca_dir o /\
  crl_file o' = crl_file o /\ crl_dir o' = crl_dir o /\
  crl_store_change o' = crl_store_change o /\
  tls_ctx o' = tls_ctx o /\ crl_store o' = crl_store o.

Definition same_outside_trusted_ca (o o' : nc_client_tls_opts) : Prop :=
  cert_path o' = cert_path o /\ key_path o' = key_path o /\
  crl_file o' = crl_file o /\ crl_dir o' = crl_dir o /\
  crl_store_change o' = crl_store_change o /\
  tls_ctx o' = tls_ctx o /\ crl_store o' = crl_store o.

Definition same_outside_crl (o o' : nc_client_tls_opts) : Prop :=
  cert_path o' = cert_path o /\ key_path o' = key_path o /\
  ca_file o' = ca_file o /\ ca_dir o' = ca_dir o /\
  tls_ctx_change o' = tls_ctx_change o /\
  tls_ctx o' = tls_ctx o /\ crl_store o' = crl_store o.

(** The verdict on the CRL issued under the certificate's own name that
    lets the callback go on: the store finds none, or the one it finds
    carries a good signature and a next-update time not yet passed. *)
Definition subject_crl_absent_or_valid (W : World) (store : X509_STORE)
    (cert : X509) : Prop :=
  let found := X509_STORE_get_by_subject W store (subject_name cert) in
  (fst found <= 0 \/ snd found = None) \/
  (exists crl t,
      snd found = Some crl /\ 0 < fst found /\
      0 < X509_CRL_verify W crl (pubkey cert) /\
      crl_nextUpdate crl = Some t /\ current_time W <= t).

(** Two states that differ at most in their log lines. *)
Definition same_but_log (s1 s2 : Machine) : Prop :=
  tls_opts s1 = tls_opts s2 /\ tls_ch_opts s1 = tls_ch_opts s2 /\
  tlsauth_ch s1 = tlsauth_ch s2 /\ heap s1 = heap s2 /\
  calls (trace s1) = calls (trace s2).

(** The log line written for an aggregate verdict other than
    [X509_V_OK]. *)
Definition verdict_warning : Event :=
  Log (WRN "Server certificate verification problem (%s).").

(** The next [n] allocations succeed. *)
Definition allocs_succeed (n : nat) (s : Machine) : Prop :=
  forall i, (i < n)%nat -> nth i (heap s) true = true.

(** The stored pointer a setter leaves for an argument whose copy
    succeeded: the copy, or [NULL] for an absent argument. *)
Definition stored (arg : option string) : c_str :=
  match arg with
  | Some p => Str p
  | None => NULL
  end.

(** The paths and flags of an option structure, the built objects
    apart. *)
Definition same_configuration (o o' : nc_client_tls_opts) : Prop :=
  cert_path o' = cert_path o /\ key_path o' = key_path o /\
  ca_file o' = ca_file o /\ ca_dir o' = ca_dir o /\
  crl_file o' = crl_file o /\ crl_dir o' = crl_dir o /\
  tls_ctx_change o' = tls_ctx_change o /\
  crl_store_change o' = crl_store_change o.

(** Whether [nc_client_tls_update_opts] rebuilds the SSL context. *)
Definition context_stale (o : nc_client_tls_opts) : Prop :=
  tls_ctx o = None \/ tls_ctx_change o <> 0.

(** Whether [nc_client_tls_update_opts] rebuilds the CRL store. *)
Definition store_stale (o : nc_client_tls_opts) : Prop :=
  crl_store_change o <> 0 \/
  (crl_store o = None /\ (crl_file o <> NULL \/ crl_dir o <> NULL)).

(** The four codes the callback itself reports. *)
Definition callback_error (e : Z) : Prop :=
  e = X509_V_ERR_CRL_SIGNATURE_FAILURE \/
  e = X509_V_ERR_ERROR_IN_CRL_NEXT_UPDATE_FIELD \/
  e = X509_V_ERR_CRL_HAS_EXPIRED \/
  e = X509_V_ERR_CERT_REVOKED.

(** The structure the role flag selects. *)
Definition active_ref (s : Machine) : opts_ref :=
  if negb (tlsauth_ch s =? 0) then ref_tls_ch_opts else ref_tls_opts.

(** The lookups a rebuilt CRL store carries for the configured paths. *)
Definition lookups_for (o : nc_client_tls_opts) : list X509_LOOKUP :=
  (if is_null (crl_file o) then []
   else [mkLookup X509_LOOKUP_file [crl_file o]]) ++
  (if is_null (crl_dir o) then []
   else [mkLookup X509_LOOKUP_hash_dir [crl_dir o]]).

(** ** Fixtures: concrete worlds, states and certificates *)

Definition opts_zero : nc_client_tls_opts :=
  mkOpts NULL NULL NULL NULL 0 None NULL NULL 0 None.

(** The state of a freshly loaded library. *)
Definition machine_zero : Machine := mkMachine opts_zero opts_zero 0 [] [].

(** A world in which every library call succeeds and the store knows no
    CRL. *)
Definition world_ok : World :=
  mkWorld (fun _ _ => (0, None)) (fun _ _ => 1) 100
          true (fun _ => 1) (fun _ => 1) (fun _ _ => 1)
          true (fun _ => true) (fun _ _ => 1)
          true (fun _ _ => 3) (fun _ => 1) (fun _ => X509_V_OK)
          (Some 7%nat) (fun _ => 0) (fun _ => 0).

(** Options as left by configuring a certificate and a CA file. *)
Definition opts_configured : nc_client_tls_opts :=
  mkOpts (Str "c.pem") NULL (Str "ca.pem") NULL 1 None NULL NULL 0 None.

Definition machine_configured : Machine :=
  mkMachine opts_configured opts_configured 0 [] [].

(** Options holding older paths of every kind, with clean flags. *)
Definition opts_old : nc_client_tls_opts :=
  mkOpts (Str "old.pem") (Str "old.key") (Str "old-ca.pem") (Str "old-ca")
         0 None (Str "old.crl") (Str "old-crl") 0 None.

Definition machine_old : Machine := mkMachine opts_old opts_old 0 [] [].

(** A state whose next allocation fails. *)
Definition machine_oom : Machine :=
  mkMachine opts_old opts_old 0 [false] [].

(** A state whose second allocation fails. *)
Definition machine_oom2 : Machine :=
  mkMachine opts_old opts_old 0 [true; false] [].

Definition store_dir : X509_STORE :=
  mkStore 0 [mkLookup X509_LOOKUP_hash_dir [Str "crls"]].

Definition opts_with_store : nc_client_tls_opts :=
  mkOpts (Str "c.pem") NULL (Str "ca.pem") NULL 1 None NULL (Str "crls") 1
         (Some store_dir).

Definition machine_with_store : Machine :=
  mkMachine opts_with_store opts_zero 0 [] [].

(** A peer certificate with serial 5 issued by "CA". *)
Definition cert5 : X509 := mkX509 "server" "CA" 5 (Some 42).

(** The CRL of "CA", revoking serial 5, valid until time 200. *)
Definition crl_CA : X509_CRL := mkCRL "CA" (Some 200) [mkRevoked 9; mkRevoked 5].

(** A CRL issued under the name of the peer itself. *)
Definition crl_server (next : option ASN1_TIME) : X509_CRL :=
  mkCRL "server" next [].

(** A world at time 100 whose store finds [crl_CA] for "CA" and, when
    [own] is given, that CRL for "server"; CRL signatures verify exactly
    when [sig_ok]. *)
Definition world_crl (own : option X509_CRL) (sig_ok : bool) : World :=
  mkWorld (fun _ name =>
             if String.eqb name "CA" then (1, Some crl_CA)
             else if String.eqb name "server" then
               match own with Some c => (1, Some c) | None => (0, None) end
             else (0, None))
          (fun _ _ => if sig_ok then 1 else 0) 100
          true (fun _ => 1) (fun _ => 1) (fun _ _ => 1)
          true (fun _ => true) (fun _ _ => 1)
          true (fun _ _ => 3) (fun _ => 1) (fun _ => X509_V_OK)
          (Some 7%nat) (fun _ => 0) (fun _ => 0).

(** A world like [world_ok] in which no client certificate can be
    loaded. *)
Definition world_no_cert : World :=
  mkWorld (fun _ _ => (0, None)) (fun _ _ => 1) 100
          true (fun _ => 0) (fun _ => 1) (fun _ _ => 1)
          true (fun _ => true) (fun _ _ => 1)
          true (fun _ _ => 3) (fun _ => 1) (fun _ => X509_V_OK)
          (Some 7%nat) (fun _ => 0) (fun _ => 0).

(** A world like [world_ok] in which the TLS handshake fails. *)
Definition world_no_handshake : World :=
  mkWorld (fun _ _ => (0, None)) (fun _ _ => 1) 100
          true (fun _ => 1) (fun _ => 1) (fun _ _ => 1)
          true (fun _ => true) (fun _ _ => 1)
          true (fun _ _ => 3) (fun _ => -1) (fun _ => X509_V_OK)
          (Some 7%nat) (fun _ => 0) (fun _ => 0).

(** Options with a certificate, a CA file and both kinds of CRL path, all
    marked changed. *)
Definition opts_with_crl_paths : nc_client_tls_opts :=
  mkOpts (Str "c.pem") NULL (Str "ca.pem") NULL 1 None
         (Str "ca.crl") (Str "crls") 1 None.

Definition machine_with_crl_paths : Machine :=
  mkMachine opts_with_crl_paths opts_zero 0 [] [].

(** ** Properties of the path setters *)

Ltac unfold_monad :=
  unfold bind, ret, log, call, emit, strdup, alloc, modify_tls_ctx,
    modify_crl_store, modify_opts, get_opts, read_opts, get_tlsauth_ch,
    set_tlsauth_ch in *.

Ltac crush_opts :=
  repeat match goal with
         | |- _ /\ _ => split
         | |- _ = _ => reflexivity
         end.

(** C9. Calling a path setter without its required input (no certificate
    path; neither CA file nor CA directory; neither CRL file nor CRL
    directory) returns -1 after reporting invalid arguments, and both
    option structures, flags included, are what they were. *)
Theorem setters_reject_absent_input (opts : opts_ref) (s : Machine)
    (client_key : option string) :
  let r1 := _nc_client_tls_set_cert_key_paths None client_key opts s in
  let r2 := _nc_client_tls_set_trusted_ca_paths None None opts s in
  let r3 := _nc_client_tls_set_crl_paths None None opts s in
  (fst r1 = -1 /\
   tls_opts (snd r1) = tls_opts s /\ tls_ch_opts (snd r1) = tls_ch_opts s /\
   trace (snd r1) =
     trace s ++ [Log (ERRARG "_nc_client_tls_set_cert_key_paths")]) /\
  (fst r2 = -1 /\
   tls_opts (snd r2) = tls_opts s /\ tls_ch_opts (snd r2) = tls_ch_opts s /\
   trace (snd r2) =
     trace s ++ [Log (ERRARG "_nc_client_tls_set_trusted_ca_paths")]) /\
  (fst r3 = -1 /\
   tls_opts (snd r3) = tls_opts s /\ tls_ch_opts (snd r3) = tls_ch_opts s /\
   trace (snd r3) =
     trace s ++ [Log (ERRARG "_nc_client_tls_set_crl_paths")]).
Proof.
  cbv zeta.
  unfold _nc_client_tls_set_cert_key_paths,
    _nc_client_tls_set_trusted_ca_paths, _nc_client_tls_set_crl_paths.
  unfold_monad. simpl. crush_opts.
Qed.

Ltac unfold_setters :=
  unfold _nc_client_tls_set_cert_key_paths,
    _nc_client_tls_set_trusted_ca_paths, _nc_client_tls_set_crl_paths.

(** Splits on the outcomes of the next two allocations. *)
Ltac split_heap h := destruct h as [|[|] [|[|] h]].

(** C7. A setter that returns 0 raises its own dirty flag and no other:
    the certificate/key and the CA setters set [tls_ctx_change] and leave
    [crl_store_change] as it was, the CRL setter sets [crl_store_change]
    and leaves [tls_ctx_change] as it was; the paths owned by the other
    setters, the built context and store, and the structure of the other
    role are untouched. *)
Theorem setters_raise_only_their_flag (opts : opts_ref) (s : Machine)
    (a b : option string) :
  (forall s', _nc_client_tls_set_cert_key_paths a b opts s = (0, s') ->
     tls_ctx_change (read_opts opts s') = 1 /\
     same_outside_cert_key (read_opts opts s) (read_opts opts s') /\
     read_opts (other_ref opts) s' = read_opts (other_ref opts) s) /\
  (forall s', _nc_client_tls_set_trusted_ca_paths a b opts s = (0, s') ->
     tls_ctx_change (read_opts opts s') = 1 /\
     same_outside_trusted_ca (read_opts opts s) (read_opts opts s') /\
     read_opts (other_ref opts) s' = read_opts (other_ref opts) s) /\
  (forall s', _nc_client_tls_set_crl_paths a b opts s = (0, s') ->
     crl_store_change (read_opts opts s') = 1 /\
     same_outside_crl (read_opts opts s) (read_opts opts s') /\
     read_opts (other_ref opts) s' = read_opts (other_ref opts) s).
Proof.
  destruct s as [o1 o2 ch h t].
  split; [|split]; intros s'; unfold_setters; unfold_monad;
    destruct a, b, opts; split_heap h; simpl; intros E;
      try discriminate E; inversion E; subst; clear E; simpl;
        repeat split.
Qed.

Lemma setters_raise_only_their_flag_witness :
  let s1 := snd (nc_client_tls_set_cert_key_paths (Some "c.pem") (Some "c.key")
                   machine_old) in
  let s2 := snd (nc_client_tls_set_trusted_ca_paths (Some "ca.pem") None
                   machine_zero) in
  let s3 := snd (nc_client_tls_ch_set_crl_paths None (Some "crls")
                   machine_zero) in
  (tls_ctx_change (tls_opts s1) = 1 /\
   same_outside_cert_key opts_old (tls_opts s1)) /\
  (tls_ctx_change (tls_opts s2) = 1 /\
   same_outside_trusted_ca opts_zero (tls_opts s2)) /\
  (crl_store_change (tls_ch_opts s3) = 1 /\
   same_outside_crl opts_zero (tls_ch_opts s3)).
Proof.
  cbv zeta.
  destruct (setters_raise_only_their_flag ref_tls_opts machine_old
              (Some "c.pem") (Some "c.key")) as (H1 & _ & _).
  destruct (setters_raise_only_their_flag ref_tls_opts machine_zero
              (Some "ca.pem") None) as (_ & H2 & _).
  destruct (setters_raise_only_their_flag ref_tls_ch_opts machine_zero
              None (Some "crls")) as (_ & _ & H3).
  split; [|split].
  - destruct (H1 _ eq_refl) as (F & S & _). exact (conj F S).
  - destruct (H2 _ eq_refl) as (F & S & _). exact (conj F S).
  - destruct (H3 _ eq_refl) as (F & S & _). exact (conj F S).
Defined.

(** C4, as the code has it.  When the copy of the certificate path, of a
    CA path or of a CRL path cannot be allocated, the setter returns -1
    after reporting the memory error; both dirty flags, the built context
    and store, the paths owned by the other setters and the structure of
    the other role are what they were.  The two paths of the attempted
    setter are not kept: they were released before the copy was tried, the
    path whose copy failed reads [NULL], a path copied before it holds the
    new value and a path not reached yet is left stale. *)
Theorem setters_out_of_memory (opts : opts_ref) (s : Machine)
    (h : list bool) (f d : string) (other : option string) :
  let o := read_opts opts s in
  (heap s = false :: h ->
   let r := _nc_client_tls_set_cert_key_paths (Some f) other opts s in
   let o' := read_opts opts (snd r) in
   fst r = -1 /\
   trace (snd r) =
     trace s ++ [Log (ERRMEM "_nc_client_tls_set_cert_key_paths")] /\
   cert_path o' = NULL /\ key_path o' = free (key_path o) /\
   tls_ctx_change o' = tls_ctx_change o /\ same_outside_cert_key o o' /\
   read_opts (other_ref opts) (snd r) = read_opts (other_ref opts) s) /\
  (heap s = false :: h ->
   let r := _nc_client_tls_set_trusted_ca_paths (Some f) other opts s in
   let o' := read_opts opts (snd r) in
   fst r = -1 /\
   trace (snd r) =
     trace s ++ [Log (ERRMEM "_nc_client_tls_set_trusted_ca_paths")] /\
   ca_file o' = NULL /\ ca_dir o' = free (ca_dir o) /\
   tls_ctx_change o' = tls_ctx_change o /\ same_outside_trusted_ca o o' /\
   read_opts (other_ref opts) (snd r) = read_opts (other_ref opts) s) /\
  (heap s = match other with Some _ => true :: false :: h
                           | None => false :: h end ->
   let r := _nc_client_tls_set_trusted_ca_paths other (Some d) opts s in
   let o' := read_opts opts (snd r) in
   fst r = -1 /\
   trace (snd r) =
     trace s ++ [Log (ERRMEM "_nc_client_tls_set_trusted_ca_paths")] /\
   ca_file o' = match other with Some x => Str x | None => NULL end /\
   ca_dir o' = NULL /\
   tls_ctx_change o' = tls_ctx_change o /\ same_outside_trusted_ca o o' /\
   read_opts (other_ref opts) (snd r) = read_opts (other_ref opts) s) /\
  (heap s = false :: h ->
   let r := _nc_client_tls_set_crl_paths (Some f) other opts s in
   let o' := read_opts opts (snd r) in
   fst r = -1 /\
   trace (snd r) =
     trace s ++ [Log (ERRMEM "_nc_client_tls_set_crl_paths")] /\
   crl_file o' = NULL /\ crl_dir o' = free (crl_dir o) /\
   crl_store_change o' = crl_store_change o /\ same_outside_crl o o' /\
   read_opts (other_ref opts) (snd r) = read_opts (other_ref opts) s) /\
  (heap s = match other with Some _ => true :: false :: h
                           | None => false :: h end ->
   let r := _nc_client_tls_set_crl_paths other (Some d) opts s in
   let o' := read_opts opts (snd r) in
   fst r = -1 /\
   trace (snd r) =
     trace s ++ [Log (ERRMEM "_nc_client_tls_set_crl_paths")] /\
   crl_file o' = match other with Some x => Str x | None => NULL end /\
   crl_dir o' = NULL /\
   crl_store_change o' = crl_store_change o /\ same_outside_crl o o' /\
   read_opts (other_ref opts) (snd r) = read_opts (other_ref opts) s).
Proof.
  destruct s as [o1 o2 ch hp t]. cbv zeta. simpl heap.
  split; [|split; [|split; [|split]]]; intros E; subst hp;
    unfold_setters; unfold_monad; destruct other, opts; simpl;
      repeat split.
Qed.

Lemma setters_out_of_memory_witness :
  let r1 := nc_client_tls_set_cert_key_paths (Some "new.pem") None
              machine_oom in
  let r2 := nc_client_tls_set_trusted_ca_paths (Some "new-ca.pem")
              (Some "new-ca") machine_oom2 in
  let r3 := nc_client_tls_set_crl_paths None (Some "new-crl") machine_oom in
  (fst r1 = -1 /\ cert_path (tls_opts (snd r1)) = NULL /\
   key_path (tls_opts (snd r1)) = Dangling /\
   same_outside_cert_key opts_old (tls_opts (snd r1))) /\
  (fst r2 = -1 /\ ca_file (tls_opts (snd r2)) = Str "new-ca.pem" /\
   ca_dir (tls_opts (snd r2)) = NULL /\
   tls_ctx_change (tls_opts (snd r2)) = 0) /\
  (fst r3 = -1 /\ crl_file (tls_opts (snd r3)) = NULL /\
   crl_dir (tls_opts (snd r3)) = NULL /\
   crl_store_change (tls_opts (snd r3)) = 0).
Proof.
  cbv zeta.
  destruct (setters_out_of_memory ref_tls_opts machine_oom [] "new.pem"
              "unused" None) as (H1 & _).
  destruct (setters_out_of_memory ref_tls_opts machine_oom2 [] "unused"
              "new-ca" (Some "new-ca.pem")) as (_ & _ & H2 & _).
  destruct (setters_out_of_memory ref_tls_opts machine_oom [] "unused"
              "new-crl" None) as (_ & _ & _ & _ & H3).
  split; [|split].
  - destruct (H1 eq_refl) as (R & _ & C & K & _ & S & _).
    exact (conj R (conj C (conj K S))).
  - destruct (H2 eq_refl) as (R & _ & C & K & F & _).
    exact (conj R (conj C (conj K F))).
  - destruct (H3 eq_refl) as (R & _ & C & K & F & _).
    exact (conj R (conj C (conj K F))).
Defined.

(** C4 as stated fails: with "old.pem" stored and the next allocation
    failing, the certificate/key setter returns -1 and the stored
    certificate path is gone. *)
Lemma setters_out_of_memory_lose_prior_paths :
  let r := nc_client_tls_set_cert_key_paths (Some "new.pem") None
             machine_oom in
  heap machine_oom = [false] /\
  cert_path (tls_opts machine_oom) = Str "old.pem" /\
  fst r = -1 /\
  cert_path (tls_opts (snd r)) <> cert_path (tls_opts machine_oom).
Proof.
  cbv zeta. repeat split. vm_compute. discriminate.
Qed.

(** The certificate/key setter tests [cert_path] after copying the key
    path: a failed copy of the key goes unreported, the setter returns 0
    with the key path [NULL] and the dirty flag raised. *)
Lemma set_cert_key_paths_key_copy_failure_unreported :
  let r := nc_client_tls_set_cert_key_paths (Some "new.pem") (Some "new.key")
             machine_oom2 in
  fst r = 0 /\ key_path (tls_opts (snd r)) = NULL /\
  cert_path (tls_opts (snd r)) = Str "new.pem" /\
  tls_ctx_change (tls_opts (snd r)) = 1 /\ trace (snd r) = [].
Proof.
  cbv zeta. repeat split.
Qed.

(** ** Properties of the verification callback *)

Lemma ASN1_INTEGER_cmp_eq (a b : ASN1_INTEGER) :
  (ASN1_INTEGER_cmp a b =? 0) = true <-> a = b.
Proof.
  unfold ASN1_INTEGER_cmp.
  destruct (Z.compare_spec a b) as [E | L | G]; simpl; split; intros H;
    try discriminate; try reflexivity; try assumption; lia.
Qed.

(** The loop finds exactly the serial numbers the list contains. *)
Lemma revoked_scan_spec (entries : list X509_REVOKED) (cert : X509) :
  revoked_scan entries cert = true <->
  exists revoked, In revoked entries /\
                  revoked_serialNumber revoked = serialNumber cert.
Proof.
  induction entries as [| r rest IH]; simpl.
  - split; [discriminate | intros (x & [] & _)].
  - destruct (ASN1_INTEGER_cmp (revoked_serialNumber r) (serialNumber cert)
              =? 0) eqn:E.
    + apply ASN1_INTEGER_cmp_eq in E. split; [|reflexivity].
      intros _. exists r. auto.
    + rewrite IH. split.
      * intros (x & Hin & Hx). exists x. auto.
      * intros (x & [-> | Hin] & Hx).
        -- apply ASN1_INTEGER_cmp_eq in Hx. congruence.
        -- exists x. auto.
Qed.

(** The comparison is negative exactly for a timestamp the current time
    has passed. *)
Lemma X509_cmp_current_time_expired (W : World) (t : ASN1_TIME) :
  (X509_cmp_current_time W t <? 0) = true <-> ~ (current_time W <= t).
Proof.
  unfold X509_cmp_current_time.
  destruct (Z.compare_spec t (current_time W)) as [E | L | G]; simpl; split;
    intros H; try discriminate; try reflexivity; lia.
Qed.

Ltac unfold_callback :=
  unfold tlsauth_verify_callback, active_opts in *; unfold_monad.

(** C5. For a certificate that passed pre-verification, when the active
    role has no revocation store the callback returns 1; the error of the
    verification context is untouched and the machine state, trace
    included, is returned as it was: no CRL lookup took place. *)
Theorem callback_accepts_without_store (W : World) (s : Machine)
    (preverify_ok : Z) (x509_ctx : X509_STORE_CTX) :
  preverify_ok <> 0 ->
  crl_store (active_opts s) = None ->
  tlsauth_verify_callback W preverify_ok x509_ctx s = ((1, x509_ctx), s).
Proof.
  intros Hpre Hstore. unfold_callback.
  apply Z.eqb_neq in Hpre. rewrite Hpre.
  destruct (negb (tlsauth_ch s =? 0)); rewrite Hstore; reflexivity.
Qed.

Lemma callback_accepts_without_store_witness :
  tlsauth_verify_callback (world_crl None true) 1 (mkStoreCtx cert5 0)
    machine_configured
  = ((1, mkStoreCtx cert5 0), machine_configured).
Proof.
  apply callback_accepts_without_store; [discriminate | reflexivity].
Defined.

(** C3. When the store finds a CRL issued under the subject name of a
    certificate that passed pre-verification, the callback checks it in
    this order: a signature that does not verify under the certificate's
    key gives 0 with [X509_V_ERR_CRL_SIGNATURE_FAILURE]; else a missing
    next-update time gives 0 with
    [X509_V_ERR_ERROR_IN_CRL_NEXT_UPDATE_FIELD]; else a next-update time
    the current time has passed gives 0 with [X509_V_ERR_CRL_HAS_EXPIRED].
    In these three cases the only lookup made is the one for the subject;
    the lookup for the issuer follows only when all three checks pass. *)
Theorem callback_validates_subject_crl (W : World) (s : Machine)
    (preverify_ok : Z) (x509_ctx : X509_STORE_CTX) (store : X509_STORE)
    (rc : Z) (crl : X509_CRL) :
  let cert := current_cert x509_ctx in
  let lookup_subject := Call (c_X509_STORE_get_by_subject (subject_name cert)) in
  let lookup_issuer := Call (c_X509_STORE_get_by_subject (issuer_name cert)) in
  let r := tlsauth_verify_callback W preverify_ok x509_ctx s in
  preverify_ok <> 0 ->
  crl_store (active_opts s) = Some store ->
  X509_STORE_get_by_subject W store (subject_name cert) = (rc, Some crl) ->
  0 < rc ->
  (X509_CRL_verify W crl (pubkey cert) <= 0 ->
   fst r = (0, X509_STORE_CTX_set_error x509_ctx
                 X509_V_ERR_CRL_SIGNATURE_FAILURE) /\
   trace (snd r) = trace s ++ [lookup_subject]) /\
  (0 < X509_CRL_verify W crl (pubkey cert) ->
   crl_nextUpdate crl = None ->
   fst r = (0, X509_STORE_CTX_set_error x509_ctx
                 X509_V_ERR_ERROR_IN_CRL_NEXT_UPDATE_FIELD) /\
   trace (snd r) = trace s ++ [lookup_subject]) /\
  (0 < X509_CRL_verify W crl (pubkey cert) ->
   forall t, crl_nextUpdate crl = Some t ->
   ~ (current_time W <= t) ->
   fst r = (0, X509_STORE_CTX_set_error x509_ctx
                 X509_V_ERR_CRL_HAS_EXPIRED) /\
   trace (snd r) = trace s ++ [lookup_subject]) /\
  (0 < X509_CRL_verify W crl (pubkey cert) ->
   forall t, crl_nextUpdate crl = Some t ->
   current_time W <= t ->
   (fst r = (1, x509_ctx) \/
    fst r = (0, X509_STORE_CTX_set_error x509_ctx X509_V_ERR_CERT_REVOKED)) /\
   exists rest,
     trace (snd r) = trace s ++ lookup_subject :: lookup_issuer :: rest).
Proof.
  cbv zeta. intros Hpre Hstore Hfound Hrc.
  apply Z.eqb_neq in Hpre. apply Z.ltb_lt in Hrc.
  unfold_callback. rewrite Hpre.
  destruct (negb (tlsauth_ch s =? 0)); rewrite Hstore; simpl;
    rewrite Hfound, Hrc;
    destruct (Z.leb_spec (X509_CRL_verify W crl
                            (pubkey (current_cert x509_ctx))) 0)
      as [Hbad | Hgood].
  all: (split; [|split; [|split]]).
  all: try (intros Hv; exfalso; lia).
  all: try (intros _; simpl; split; reflexivity).
  all: try (intros _ Hn; rewrite Hn; simpl; split; reflexivity).
  all: intros _ t Hn Ht; rewrite Hn.
  all: try (apply X509_cmp_current_time_expired in Ht; rewrite Ht; simpl;
            split; reflexivity).
  all: destruct (X509_cmp_current_time W t <? 0) eqn:Ecmp;
    [apply X509_cmp_current_time_expired in Ecmp; contradiction|].
  all: simpl;
    destruct (X509_STORE_get_by_subject W store
                (issuer_name (current_cert x509_ctx))) as [rc' [crl'|]];
    destruct (0 <? rc'); simpl;
    try destruct (revoked_scan (crl_revoked crl') (current_cert x509_ctx));
    simpl; rewrite <- ?app_assoc; simpl; split; eauto.
Qed.

Lemma callback_validates_subject_crl_witness :
  let x := mkStoreCtx cert5 0 in
  let run own sig_ok :=
    tlsauth_verify_callback (world_crl own sig_ok) 1 x machine_with_store in
  fst (run (Some (crl_server (Some 200))) false)
    = (0, mkStoreCtx cert5 X509_V_ERR_CRL_SIGNATURE_FAILURE) /\
  fst (run (Some (crl_server None)) true)
    = (0, mkStoreCtx cert5 X509_V_ERR_ERROR_IN_CRL_NEXT_UPDATE_FIELD) /\
  fst (run (Some (crl_server (Some 50))) true)
    = (0, mkStoreCtx cert5 X509_V_ERR_CRL_HAS_EXPIRED) /\
  exists rest,
    trace (snd (run (Some (crl_server (Some 200))) true))
    = [] ++ Call (c_X509_STORE_get_by_subject "server")
            :: Call (c_X509_STORE_get_by_subject "CA") :: rest.
Proof.
  cbv zeta.
  pose (x := mkStoreCtx cert5 0).
  assert (Hpre : 1 <> 0) by discriminate.
  assert (Hrc : 0 < 1) by reflexivity.
  split; [|split; [|split]].
  - destruct (callback_validates_subject_crl
                (world_crl (Some (crl_server (Some 200))) false)
                machine_with_store 1 x store_dir 1 (crl_server (Some 200))
                Hpre eq_refl eq_refl Hrc) as (H & _).
    apply H. simpl. lia.
  - destruct (callback_validates_subject_crl
                (world_crl (Some (crl_server None)) true)
                machine_with_store 1 x store_dir 1 (crl_server None)
                Hpre eq_refl eq_refl Hrc) as (_ & H & _).
    apply H; [reflexivity | reflexivity].
  - destruct (callback_validates_subject_crl
                (world_crl (Some (crl_server (Some 50))) true)
                machine_with_store 1 x store_dir 1 (crl_server (Some 50))
                Hpre eq_refl eq_refl Hrc) as (_ & _ & H & _).
    apply (H eq_refl 50 eq_refl). simpl. lia.
  - destruct (callback_validates_subject_crl
                (world_crl (Some (crl_server (Some 200))) true)
                machine_with_store 1 x store_dir 1 (crl_server (Some 200))
                Hpre eq_refl eq_refl Hrc) as (_ & _ & _ & H).
    apply (H eq_refl 200 eq_refl). simpl. lia.
Defined.

(** C2, as the code has it.  For a certificate that passed
    pre-verification, when the store finds a CRL under the issuer name
    that lists the serial number of the certificate, and the CRL under the
    subject name is absent or valid, the callback returns 0 with
    [X509_V_ERR_CERT_REVOKED] and logs "Certificate revoked!" as an
    error. *)
Theorem callback_rejects_revoked (W : World) (s : Machine)
    (preverify_ok : Z) (x509_ctx : X509_STORE_CTX) (store : X509_STORE)
    (rc : Z) (crl : X509_CRL) :
  let cert := current_cert x509_ctx in
  let r := tlsauth_verify_callback W preverify_ok x509_ctx s in
  preverify_ok <> 0 ->
  crl_store (active_opts s) = Some store ->
  X509_STORE_get_by_subject W store (issuer_name cert) = (rc, Some crl) ->
  0 < rc ->
  (exists revoked, In revoked (crl_revoked crl) /\
                   revoked_serialNumber revoked = serialNumber cert) ->
  subject_crl_absent_or_valid W store cert ->
  fst r = (0, X509_STORE_CTX_set_error x509_ctx X509_V_ERR_CERT_REVOKED) /\
  trace (snd r) =
    trace s ++ [Call (c_X509_STORE_get_by_subject (subject_name cert));
                Call (c_X509_STORE_get_by_subject (issuer_name cert));
                Log (ERR "Certificate revoked!")].
Proof.
  cbv zeta. intros Hpre Hstore Hfound Hrc Hrev Hsubj.
  apply Z.eqb_neq in Hpre. apply Z.ltb_lt in Hrc.
  apply revoked_scan_spec in Hrev.
  unfold subject_crl_absent_or_valid in Hsubj.
  unfold_callback. rewrite Hpre.
  destruct (negb (tlsauth_ch s =? 0)); rewrite Hstore; simpl;
    destruct (X509_STORE_get_by_subject W store
                (subject_name (current_cert x509_ctx))) as [rc' own];
    simpl in Hsubj;
    destruct Hsubj as [[Hle | Hnone] | (c & t & Hsome & Hpos & Hsig & Hn & Ht)];
    [ apply Z.ltb_ge in Hle; rewrite Hle; destruct own
    | subst own; destruct (0 <? rc')
    | subst own; apply Z.ltb_lt in Hpos; rewrite Hpos;
      apply Z.leb_gt in Hsig; rewrite Hsig, Hn;
      destruct (X509_cmp_current_time W t <? 0) eqn:Ecmp;
      [apply X509_cmp_current_time_expired in Ecmp; contradiction|]
    | apply Z.ltb_ge in Hle; rewrite Hle; destruct own
    | subst own; destruct (0 <? rc')
    | subst own; apply Z.ltb_lt in Hpos; rewrite Hpos;
      apply Z.leb_gt in Hsig; rewrite Hsig, Hn;
      destruct (X509_cmp_current_time W t <? 0) eqn:Ecmp;
      [apply X509_cmp_current_time_expired in Ecmp; contradiction|] ].
  all: simpl; rewrite Hfound, Hrc, Hrev; simpl; rewrite <- ?app_assoc;
    split; reflexivity.
Qed.

Lemma callback_rejects_revoked_witness :
  let x := mkStoreCtx cert5 0 in
  fst (tlsauth_verify_callback (world_crl None true) 1 x machine_with_store)
    = (0, mkStoreCtx cert5 X509_V_ERR_CERT_REVOKED) /\
  fst (tlsauth_verify_callback
         (world_crl (Some (crl_server (Some 200))) true) 1 x
         machine_with_store)
    = (0, mkStoreCtx cert5 X509_V_ERR_CERT_REVOKED).
Proof.
  cbv zeta.
  assert (Hpre : 1 <> 0) by discriminate.
  assert (Hrc : 0 < 1) by reflexivity.
  assert (Hrev : exists revoked, In revoked (crl_revoked crl_CA) /\
                   revoked_serialNumber revoked = serialNumber cert5).
  { exists (mkRevoked 5). split; [right; left; reflexivity | reflexivity]. }
  split.
  - apply (callback_rejects_revoked (world_crl None true) machine_with_store
             1 (mkStoreCtx cert5 0) store_dir 1 crl_CA
             Hpre eq_refl eq_refl Hrc Hrev).
    left. left. simpl. lia.
  - apply (callback_rejects_revoked
             (world_crl (Some (crl_server (Some 200))) true)
             machine_with_store 1 (mkStoreCtx cert5 0) store_dir 1 crl_CA
             Hpre eq_refl eq_refl Hrc Hrev).
    right. exists (crl_server (Some 200)), 200. simpl.
    repeat split; lia.
Defined.

(** C2 as stated fails when the CRL under the subject name is present and
    bad: the issuer's CRL lists serial 5, yet the callback stops at the
    signature of the subject's CRL, reports
    [X509_V_ERR_CRL_SIGNATURE_FAILURE] and never logs the revocation. *)
Lemma callback_revoked_behind_bad_subject_crl :
  let W := world_crl (Some (crl_server (Some 200))) false in
  let r := tlsauth_verify_callback W 1 (mkStoreCtx cert5 0)
             machine_with_store in
  crl_store (active_opts machine_with_store) = Some store_dir /\
  X509_STORE_get_by_subject W store_dir (issuer_name cert5)
    = (1, Some crl_CA) /\
  In (mkRevoked (serialNumber cert5)) (crl_revoked crl_CA) /\
  fst r = (0, mkStoreCtx cert5 X509_V_ERR_CRL_SIGNATURE_FAILURE) /\
  error (snd (fst r)) <> X509_V_ERR_CERT_REVOKED /\
  ~ In (Log (ERR "Certificate revoked!")) (trace (snd r)).
Proof.
  cbv zeta. repeat split.
  - simpl. auto.
  - vm_compute. discriminate.
  - vm_compute. intros [H | []]. discriminate H.
Qed.

(** ** Properties of the context builder *)

(** The built context and store are reused when nothing asks for a
    rebuild: with both flags clear, a context present, and a store present
    or no CRL path set, [nc_client_tls_update_opts] returns 0 and leaves
    the whole state, trace included, as it was. *)
Lemma update_opts_clean_is_noop (W : World) (opts : opts_ref) (s : Machine) :
  let o := read_opts opts s in
  tls_ctx o <> None ->
  tls_ctx_change o = 0 ->
  crl_store_change o = 0 ->
  (crl_store o <> None \/ (crl_file o = NULL /\ crl_dir o = NULL)) ->
  nc_client_tls_update_opts W opts s = (0, s).
Proof.
  cbv zeta. intros Hctx Hc Hs Hstore.
  unfold nc_client_tls_update_opts. unfold_monad.
  destruct opts; cbn beta iota zeta in *;
    (destruct (tls_ctx _); [|congruence]); rewrite Hc; cbn;
    rewrite Hs; cbn;
    (destruct Hstore as [Hst | [-> ->]];
     [destruct (crl_store _); [|congruence] | destruct (crl_store _)]);
    reflexivity.
Qed.

(** No path through [nc_client_tls_update_opts] writes the dirty flags. *)
Lemma update_opts_keeps_flags (W : World) (opts : opts_ref) (s : Machine) :
  let s' := snd (nc_client_tls_update_opts W opts s) in
  tls_ctx_change (read_opts opts s') = tls_ctx_change (read_opts opts s) /\
  crl_store_change (read_opts opts s') = crl_store_change (read_opts opts s).
Proof.
  cbv zeta. unfold nc_client_tls_update_opts, SSL_CTX_new, X509_STORE_new.
  unfold_monad.
  destruct opts; simpl;
    repeat match goal with
           | |- context [if ?b then _ else _] => destruct b; simpl
           | |- context [match ?x with None => _ | Some _ => _ end] =>
               destruct x; simpl
           end; split; reflexivity.
Qed.

(** C1 fails on the code.  After the three setters and a first
    [nc_client_tls_update_opts] in which every library call succeeds, both
    dirty flags are still 1, and a second call with nothing changed in
    between returns 0 after freeing and creating the SSL context and the
    CRL store once more. *)
Theorem update_opts_rebuilds_unchanged_configuration :
  let s0 :=
    snd (nc_client_tls_set_crl_paths None (Some "crls")
      (snd (nc_client_tls_set_trusted_ca_paths (Some "ca.pem") None
        (snd (nc_client_tls_set_cert_key_paths (Some "c.pem") None
          machine_zero))))) in
  let r1 := nc_client_tls_update_opts world_ok ref_tls_opts s0 in
  let r2 := nc_client_tls_update_opts world_ok ref_tls_opts (snd r1) in
  fst r1 = 0 /\
  tls_ctx_change (tls_opts (snd r1)) = 1 /\
  crl_store_change (tls_opts (snd r1)) = 1 /\
  tls_ctx (tls_opts (snd r1)) <> None /\
  crl_store (tls_opts (snd r1)) <> None /\
  fst r2 = 0 /\
  trace (snd r2) =
    trace (snd r1) ++ [Call c_SSL_CTX_free; Call c_SSL_CTX_new;
                       Call c_X509_STORE_free; Call c_X509_STORE_new].
Proof.
  cbv zeta. repeat split; vm_compute; discriminate.
Qed.

(** ** Properties of the connection entry points *)

(** C8. With no client certificate path, or with neither a CA file nor a
    CA directory, [nc_connect_tls] returns no session after reporting
    invalid arguments; nothing else happened: no call was made (no context
    or store rebuilt, no socket opened) and the rest of the state is what
    it was. *)
Theorem nc_connect_tls_requires_configuration (W : World) (s : Machine)
    (host_arg : option string) (port_arg : Z) (ctx_arg : option ly_ctx) :
  cert_path (tls_opts s) = NULL \/
  (ca_file (tls_opts s) = NULL /\ ca_dir (tls_opts s) = NULL) ->
  nc_connect_tls W host_arg port_arg ctx_arg s =
    (None, mkMachine (tls_opts s) (tls_ch_opts s) (tlsauth_ch s) (heap s)
                     (trace s ++ [Log (ERRARG "nc_connect_tls")])).
Proof.
  intros H. unfold nc_connect_tls.
  unfold bind at 1. unfold get_opts, read_opts.
  destruct H as [-> | [-> ->]]; simpl.
  - reflexivity.
  - rewrite orb_true_r. reflexivity.
Qed.

Lemma nc_connect_tls_requires_configuration_witness :
  nc_connect_tls world_ok (Some "example.net") 0 None machine_zero =
    (None, mkMachine opts_zero opts_zero 0 []
                     ([] ++ [Log (ERRARG "nc_connect_tls")])) /\
  calls (trace (snd (nc_connect_tls world_ok (Some "example.net") 0 None
                       machine_zero))) = [].
Proof.
  assert (E := nc_connect_tls_requires_configuration world_ok machine_zero
                 (Some "example.net") 0 None (or_introl eq_refl)).
  split; [exact E | rewrite E; reflexivity].
Defined.

(** C10. Handed no TLS handle, or one whose handshake has not finished,
    [nc_connect_libssl] returns no session after logging the error; no
    session was allocated and the NETCONF handshake was not attempted: the
    trace gains the log line and no call, the rest of the state is what it
    was. *)
Theorem nc_connect_libssl_requires_connected_tls (W : World) (s : Machine)
    (tls : option SSL) (ctx_arg : option ly_ctx) :
  tls = None \/
  (exists t, tls = Some t /\ SSL_is_init_finished t = false) ->
  nc_connect_libssl W tls ctx_arg s =
    (None, mkMachine (tls_opts s) (tls_ch_opts s) (tlsauth_ch s) (heap s)
             (trace s ++
              [Log (ERR "Supplied TLS session is not fully connected!")])).
Proof.
  intros [-> | (t & -> & Hfin)]; unfold nc_connect_libssl.
  - reflexivity.
  - rewrite Hfin. reflexivity.
Qed.

Lemma nc_connect_libssl_requires_connected_tls_witness :
  let pending := mkSSL (mkSSL_CTX None None None None) (Some 3) true false in
  fst (nc_connect_libssl world_ok None (Some 7%nat) machine_configured)
    = None /\
  fst (nc_connect_libssl world_ok (Some pending) None machine_configured)
    = None /\
  calls (trace (snd (nc_connect_libssl world_ok (Some pending) None
                       machine_configured))) = [].
Proof.
  cbv zeta.
  assert (E1 := nc_connect_libssl_requires_connected_tls world_ok
                  machine_configured None (Some 7%nat) (or_introl eq_refl)).
  assert (E2 := nc_connect_libssl_requires_connected_tls world_ok
                  machine_configured
                  (Some (mkSSL (mkSSL_CTX None None None None) (Some 3) true
                           false))
                  None
                  (or_intror (ex_intro _ _ (conj eq_refl eq_refl)))).
  rewrite E1, E2. repeat split.
Defined.

(** The context builder never looks at the aggregate verdict. *)
Lemma update_opts_ignores_verify_result (W : World) (v : Z)
    (opts : opts_ref) (s : Machine) :
  nc_client_tls_update_opts (with_verify_result v W) opts s =
  nc_client_tls_update_opts W opts s.
Proof. reflexivity. Qed.

Lemma calls_app (t1 t2 : list Event) : calls (t1 ++ t2) = calls t1 ++ calls t2.
Proof. apply filter_app. Qed.

(** Whatever path the context builder takes, it only appends to the
    trace. *)
Lemma update_opts_extends_trace (W : World) (opts : opts_ref) (s : Machine) :
  exists new,
    trace (snd (nc_client_tls_update_opts W opts s)) = trace s ++ new.
Proof.
  unfold nc_client_tls_update_opts, SSL_CTX_new, X509_STORE_new.
  unfold_monad.
  destruct opts; simpl;
    repeat match goal with
           | |- context [if ?b then _ else _] => destruct b; simpl
           | |- context [match ?x with None => _ | Some _ => _ end] =>
               destruct x; simpl
           end; rewrite <- ?app_assoc; eexists; try reflexivity;
    symmetry; apply app_nil_r.
Qed.

(** One branching point of a connection attempt whose context builder is
    [u]. *)
Ltac connect_step u :=
  match goal with
  | |- context [u ?x] =>
      let rc := fresh "rc" in
      let s1 := fresh "s" in
      destruct (u x) as [rc s1] eqn:?
  | |- context [if ?b then _ else _] => destruct b eqn:?
  | |- context [match ?x with None => _ | Some _ => _ end] =>
      destruct x eqn:?
  | |- context [match ?x with [] => _ | _ :: _ => _ end] =>
      destruct x eqn:?
  end.

(** Closes one path of a connection attempt run under two verdicts. *)
Ltac connect_path u Hu :=
  split; [reflexivity | split];
  [ unfold same_but_log; simpl; rewrite ?calls_app; simpl; repeat split
  | intros Hv Hsome;
    try (exfalso; apply Hsome; reflexivity);
    try match goal with
        | E : (_ =? X509_V_OK) = true |- _ =>
            apply Z.eqb_eq in E; contradiction
        end;
    match goal with
    | E : u ?x = _ |- _ =>
        let new := fresh "new" in
        let Hnew := fresh "Hnew" in
        destruct (Hu x) as [new Hnew]; rewrite E in Hnew; simpl in Hnew;
        rewrite Hnew; rewrite <- ?app_assoc; eexists;
        split; [reflexivity |];
        rewrite !in_app_iff; simpl; unfold verdict_warning; tauto
    end ].

(** C6. The aggregate verdict read after a successful TLS handshake
    decides nothing.  Run under any verdict [v], [nc_connect_tls] and
    [nc_accept_callhome_tls_sock] return what they return under
    [X509_V_OK], the same session or the same failure, and end in a state
    that differs at most in its log lines; when the verdict is not
    [X509_V_OK] and a session is returned, the attempt logged the
    verification problem as a warning. *)
Theorem verify_result_is_advisory (W : World) (v : Z) (s : Machine)
    (host_arg : option string) (port_arg sock : Z)
    (ctx_arg : option ly_ctx) :
  let Wv := with_verify_result v W in
  let Wok := with_verify_result X509_V_OK W in
  (let rv := nc_connect_tls Wv host_arg port_arg ctx_arg s in
   let rok := nc_connect_tls Wok host_arg port_arg ctx_arg s in
   fst rv = fst rok /\ same_but_log (snd rv) (snd rok) /\
   (v <> X509_V_OK -> fst rv <> None ->
    exists new, trace (snd rv) = trace s ++ new /\ In verdict_warning new)) /\
  (let rv := nc_accept_callhome_tls_sock Wv sock host_arg port_arg ctx_arg s in
   let rok :=
     nc_accept_callhome_tls_sock Wok sock host_arg port_arg ctx_arg s in
   fst rv = fst rok /\ same_but_log (snd rv) (snd rok) /\
   (v <> X509_V_OK -> fst rv <> None ->
    exists new, trace (snd rv) = trace s ++ new /\ In verdict_warning new)).
Proof.
  cbv zeta. split.
  - unfold nc_connect_tls.
    change (nc_client_tls_update_opts (with_verify_result v W))
      with (nc_client_tls_update_opts W).
    change (nc_client_tls_update_opts (with_verify_result X509_V_OK W))
      with (nc_client_tls_update_opts W).
    assert (Hu := update_opts_extends_trace W ref_tls_opts).
    set (u := nc_client_tls_update_opts W ref_tls_opts) in *. clearbody u.
    set (h := match host_arg with Some _ => _ | None => _ end).
    set (p := if port_arg =? 0 then _ else _).
    clearbody h p.
    unfold session_handshake, log_verify_result, do_SSL_connect, SSL_new.
    unfold_monad. cbn.
    repeat (connect_step u; cbn).
    all: connect_path u Hu.
  - unfold nc_accept_callhome_tls_sock, nc_connect_libssl.
    change (nc_client_tls_update_opts (with_verify_result v W))
      with (nc_client_tls_update_opts W).
    change (nc_client_tls_update_opts (with_verify_result X509_V_OK W))
      with (nc_client_tls_update_opts W).
    assert (Hu := update_opts_extends_trace W ref_tls_ch_opts).
    set (u := nc_client_tls_update_opts W ref_tls_ch_opts) in *. clearbody u.
    unfold session_handshake, log_verify_result, do_SSL_connect, SSL_new,
      SSL_is_init_finished.
    unfold_monad. cbn.
    repeat (connect_step u; cbn).
    all: connect_path u Hu.
Qed.

Lemma verify_result_is_advisory_witness :
  let W18 := with_verify_result 18 world_ok in
  let r1 := nc_connect_tls W18 (Some "example.net") 0 None
              machine_configured in
  let r2 := nc_accept_callhome_tls_sock W18 4 (Some "example.net") 0 None
              machine_configured in
  (fst r1 <> None /\
   exists new, trace (snd r1) = [] ++ new /\ In verdict_warning new) /\
  (fst r2 <> None /\
   exists new, trace (snd r2) = [] ++ new /\ In verdict_warning new).
Proof.
  cbv zeta.
  destruct (verify_result_is_advisory world_ok 18 machine_configured
              (Some "example.net") 0 4 None)
    as ((_ & _ & H1) & (_ & _ & H2)).
  assert (Hv : 18 <> X509_V_OK) by discriminate.
  assert (S1 : fst (nc_connect_tls (with_verify_result 18 world_ok)
                      (Some "example.net") 0 None machine_configured)
               <> None) by (vm_compute; discriminate).
  assert (S2 : fst (nc_accept_callhome_tls_sock
                      (with_verify_result 18 world_ok) 4
                      (Some "example.net") 0 None machine_configured)
               <> None) by (vm_compute; discriminate).
  split; split; [exact S1 | exact (H1 Hv S1) | exact S2 | exact (H2 Hv S2)].
Defined.

(** ** Further properties of the setters and getters *)

Lemma allocs_succeed_two (s : Machine) :
  allocs_succeed 2 s ->
  heap s = [] \/ heap s = [true] \/ exists h, heap s = true :: true :: h.
Proof.
  unfold allocs_succeed. intros H.
  destruct (heap s) as [|b1 [|b2 h]] eqn:E; auto.
  - right; left. specialize (H 0%nat). simpl in H. rewrite H; auto.
  - right; right. exists h.
    assert (H0 := H 0%nat). assert (H1 := H 1%nat). simpl in H0, H1.
    rewrite H0, H1; auto.
Qed.

Ltac unfold_getters :=
  unfold _nc_client_tls_get_cert_key_paths,
    _nc_client_tls_get_trusted_ca_paths, _nc_client_tls_get_crl_paths,
    store_slot.

(** X1. When the allocations succeed, a setter given its required input
    returns 0 without logging and replaces both of its paths: each stored
    path is the copy of the argument, and an absent argument clears the
    stored path to [NULL]. *)
Theorem setters_store_given_paths (opts : opts_ref) (s : Machine)
    (a b : option string) :
  allocs_succeed 2 s ->
  (a <> None ->
   let r := _nc_client_tls_set_cert_key_paths a b opts s in
   fst r = 0 /\ trace (snd r) = trace s /\
   cert_path (read_opts opts (snd r)) = stored a /\
   key_path (read_opts opts (snd r)) = stored b) /\
  (a <> None \/ b <> None ->
   let r := _nc_client_tls_set_trusted_ca_paths a b opts s in
   fst r = 0 /\ trace (snd r) = trace s /\
   ca_file (read_opts opts (snd r)) = stored a /\
   ca_dir (read_opts opts (snd r)) = stored b) /\
  (a <> None \/ b <> None ->
   let r := _nc_client_tls_set_crl_paths a b opts s in
   fst r = 0 /\ trace (snd r) = trace s /\
   crl_file (read_opts opts (snd r)) = stored a /\
   crl_dir (read_opts opts (snd r)) = stored b).
Proof.
  intros H. apply allocs_succeed_two in H.
  destruct s as [o1 o2 ch hp t]. simpl in H. cbv zeta.
  destruct H as [-> | [-> | (h & ->)]];
    (split; [|split]); intros Ha; unfold_setters; unfold_monad;
    destruct a, b, opts; simpl; repeat split;
    try (exfalso; destruct Ha; congruence); congruence.
Qed.

Lemma setters_store_given_paths_witness :
  let s1 := snd (nc_client_tls_set_cert_key_paths (Some "c.pem") None
                   machine_old) in
  let s2 := snd (nc_client_tls_set_trusted_ca_paths None (Some "certs")
                   machine_old) in
  let s3 := snd (nc_client_tls_set_crl_paths (Some "ca.crl") (Some "crls")
                   machine_old) in
  (cert_path (tls_opts s1) = Str "c.pem" /\ key_path (tls_opts s1) = NULL) /\
  (ca_file (tls_opts s2) = NULL /\ ca_dir (tls_opts s2) = Str "certs") /\
  (crl_file (tls_opts s3) = Str "ca.crl" /\
   crl_dir (tls_opts s3) = Str "crls").
Proof.
  cbv zeta.
  assert (A : allocs_succeed 2 machine_old).
  { intros i _. destruct i as [|[|i]]; reflexivity. }
  destruct (setters_store_given_paths ref_tls_opts machine_old
              (Some "c.pem") None A) as (H1 & _ & _).
  destruct (setters_store_given_paths ref_tls_opts machine_old
              None (Some "certs") A) as (_ & H2 & _).
  destruct (setters_store_given_paths ref_tls_opts machine_old
              (Some "ca.crl") (Some "crls") A) as (_ & _ & H3).
  split; [|split].
  - destruct H1 as (_ & _ & P & Q); [discriminate | exact (conj P Q)].
  - destruct H2 as (_ & _ & P & Q); [right; discriminate | exact (conj P Q)].
  - destruct H3 as (_ & _ & P & Q); [left; discriminate | exact (conj P Q)].
Defined.

(** X2. Set then get: when the allocations succeed, the getter of a pair
    of paths, asked for both, reports exactly what the setter of that pair
    was last given, whatever the output variables held before. *)
Theorem getters_return_what_setters_stored (opts : opts_ref) (s : Machine)
    (a b : option string) (x y : c_str) :
  allocs_succeed 2 s ->
  (a <> None ->
   fst (_nc_client_tls_get_cert_key_paths (Some x) (Some y) opts
          (snd (_nc_client_tls_set_cert_key_paths a b opts s)))
   = (Some (stored a), Some (stored b))) /\
  (a <> None \/ b <> None ->
   fst (_nc_client_tls_get_trusted_ca_paths (Some x) (Some y) opts
          (snd (_nc_client_tls_set_trusted_ca_paths a b opts s)))
   = (Some (stored a), Some (stored b))) /\
  (a <> None \/ b <> None ->
   fst (_nc_client_tls_get_crl_paths (Some x) (Some y) opts
          (snd (_nc_client_tls_set_crl_paths a b opts s)))
   = (Some (stored a), Some (stored b))).
Proof.
  intros H.
  destruct (setters_store_given_paths opts s a b H) as (H1 & H2 & H3).
  cbv zeta in *.
  split; [|split]; intros Ha;
    [ destruct (H1 Ha) as (_ & _ & P & Q)
    | destruct (H2 Ha) as (_ & _ & P & Q)
    | destruct (H3 Ha) as (_ & _ & P & Q) ];
    unfold_getters; unfold bind, ret, get_opts; simpl;
    rewrite P, Q; reflexivity.
Qed.

Lemma getters_return_what_setters_stored_witness :
  fst (nc_client_tls_ch_get_trusted_ca_paths (Some NULL) (Some Dangling)
         (snd (nc_client_tls_ch_set_trusted_ca_paths (Some "ca.pem") None
                 machine_old)))
  = (Some (Str "ca.pem"), Some NULL).
Proof.
  assert (A : allocs_succeed 2 machine_old).
  { intros i _. destruct i as [|[|i]]; reflexivity. }
  destruct (getters_return_what_setters_stored ref_tls_ch_opts machine_old
              (Some "ca.pem") None NULL Dangling A) as (_ & H & _).
  apply H. left. discriminate.
Defined.

(** X3. The getters only read.  Handed at least one output variable, a
    getter leaves the whole state as it was, writes the stored pointer
    into each variable it was handed and nothing anywhere else; handed
    none, it reports invalid arguments and changes nothing but the log. *)
Theorem getters_only_read (opts : opts_ref) (s : Machine)
    (x y : out_slot) :
  let o := read_opts opts s in
  let logged f :=
    mkMachine (tls_opts s) (tls_ch_opts s) (tlsauth_ch s) (heap s)
              (trace s ++ [Log (ERRARG f)]) in
  _nc_client_tls_get_cert_key_paths x y opts s =
    match x, y with
    | None, None => ((None, None), logged "_nc_client_tls_get_cert_key_paths")
    | _, _ => ((option_map (fun _ => cert_path o) x,
                option_map (fun _ => key_path o) y), s)
    end /\
  _nc_client_tls_get_trusted_ca_paths x y opts s =
    match x, y with
    | None, None =>
        ((None, None), logged "_nc_client_tls_get_trusted_ca_paths")
    | _, _ => ((option_map (fun _ => ca_file o) x,
                option_map (fun _ => ca_dir o) y), s)
    end /\
  _nc_client_tls_get_crl_paths x y opts s =
    match x, y with
    | None, None => ((None, None), logged "_nc_client_tls_get_crl_paths")
    | _, _ => ((option_map (fun _ => crl_file o) x,
                option_map (fun _ => crl_dir o) y), s)
    end.
Proof.
  cbv zeta. unfold_getters. unfold_monad.
  destruct x, y; simpl; repeat split.
Qed.

(** X4. Whatever a setter returns, 0 or -1, it stays within its own pair
    of paths: the paths of the other two pairs, the dirty flag it does not
    own, the built context and store, the structure of the other role, the
    role flag and the calls made so far are what they were.  A setter
    calls nothing outside this file. *)
Theorem setters_stay_in_their_fields (opts : opts_ref) (s : Machine)
    (a b : option string) :
  let frame (r : Z * Machine) :=
    (fst r = 0 \/ fst r = -1) /\
    read_opts (other_ref opts) (snd r) = read_opts (other_ref opts) s /\
    tlsauth_ch (snd r) = tlsauth_ch s /\
    calls (trace (snd r)) = calls (trace s) in
  (let r := _nc_client_tls_set_cert_key_paths a b opts s in
   frame r /\
   same_outside_cert_key (read_opts opts s) (read_opts opts (snd r))) /\
  (let r := _nc_client_tls_set_trusted_ca_paths a b opts s in
   frame r /\
   same_outside_trusted_ca (read_opts opts s) (read_opts opts (snd r))) /\
  (let r := _nc_client_tls_set_crl_paths a b opts s in
   frame r /\
   same_outside_crl (read_opts opts s) (read_opts opts (snd r))).
Proof.
  destruct s as [o1 o2 ch h t]. cbv zeta.
  unfold same_outside_cert_key, same_outside_trusted_ca, same_outside_crl.
  split; [|split]; unfold_setters; unfold_monad;
    destruct a, b, opts; split_heap h; simpl;
    rewrite ?calls_app; simpl; rewrite ?app_nil_r; repeat split; auto.
Qed.

(** X5. The certificate/key setter does not notice a failed copy of the
    key path: when the copy of the certificate path succeeds and the copy
    of the key path fails, it returns 0 and logs nothing, with the new
    certificate path stored, the key path [NULL] and [tls_ctx_change]
    raised. *)
Theorem set_cert_key_paths_misses_key_allocation_failure (opts : opts_ref)
    (s : Machine) (h : list bool) (cert key : string) :
  heap s = true :: false :: h ->
  let r := _nc_client_tls_set_cert_key_paths (Some cert) (Some key) opts s in
  fst r = 0 /\ trace (snd r) = trace s /\
  cert_path (read_opts opts (snd r)) = Str cert /\
  key_path (read_opts opts (snd r)) = NULL /\
  tls_ctx_change (read_opts opts (snd r)) = 1.
Proof.
  destruct s as [o1 o2 ch hp t]. simpl. intros ->. cbv zeta.
  unfold_setters; unfold_monad; destruct opts; simpl; repeat split.
Qed.

Lemma set_cert_key_paths_misses_key_allocation_failure_witness :
  let r := nc_client_tls_set_cert_key_paths (Some "new.pem") (Some "new.key")
             machine_oom2 in
  fst r = 0 /\ trace (snd r) = [] /\
  cert_path (tls_opts (snd r)) = Str "new.pem" /\
  key_path (tls_opts (snd r)) = NULL /\
  tls_ctx_change (tls_opts (snd r)) = 1.
Proof.
  exact (set_cert_key_paths_misses_key_allocation_failure ref_tls_opts
           machine_oom2 [] "new.pem" "new.key" eq_refl).
Defined.

(** X6. The last call wins: when no allocation fails, calling a setter
    twice leaves the option structure that the second call alone would
    leave; nothing of the first call's paths survives. *)
Theorem setters_last_call_wins (opts : opts_ref) (s : Machine)
    (a b c d : option string) :
  heap s = [] ->
  (a <> None -> c <> None ->
   read_opts opts
     (snd (_nc_client_tls_set_cert_key_paths c d opts
             (snd (_nc_client_tls_set_cert_key_paths a b opts s))))
   = read_opts opts (snd (_nc_client_tls_set_cert_key_paths c d opts s))) /\
  (a <> None \/ b <> None -> c <> None \/ d <> None ->
   read_opts opts
     (snd (_nc_client_tls_set_trusted_ca_paths c d opts
             (snd (_nc_client_tls_set_trusted_ca_paths a b opts s))))
   = read_opts opts (snd (_nc_client_tls_set_trusted_ca_paths c d opts s))) /\
  (a <> None \/ b <> None -> c <> None \/ d <> None ->
   read_opts opts
     (snd (_nc_client_tls_set_crl_paths c d opts
             (snd (_nc_client_tls_set_crl_paths a b opts s))))
   = read_opts opts (snd (_nc_client_tls_set_crl_paths c d opts s))).
Proof.
  destruct s as [o1 o2 ch hp t]. simpl. intros ->.
  split; [|split]; intros Ha Hc; unfold_setters; unfold_monad;
    destruct a, b, c, d, opts; simpl;
    try reflexivity; exfalso;
    try (destruct Ha; congruence); try (destruct Hc; congruence);
    congruence.
Qed.

Lemma setters_last_call_wins_witness :
  read_opts ref_tls_opts
    (snd (nc_client_tls_set_crl_paths None (Some "crls")
            (snd (nc_client_tls_set_crl_paths (Some "ca.crl") None
                    machine_old))))
  = read_opts ref_tls_opts
      (snd (nc_client_tls_set_crl_paths None (Some "crls") machine_old)).
Proof.
  destruct (setters_last_call_wins ref_tls_opts machine_old
              (Some "ca.crl") None None (Some "crls") eq_refl)
    as (_ & _ & H).
  apply H; [left | right]; discriminate.
Defined.

(** ** Further properties of the context builder *)

(** Splits on every test met along the paths of the builder. *)
Ltac builder_paths :=
  repeat match goal with
         | |- context [if ?b then _ else _] => destruct b eqn:?; simpl
         | |- context [match ?x with None => _ | Some _ => _ end] =>
             destruct x eqn:?; simpl
         end.

Ltac unfold_builder :=
  unfold nc_client_tls_update_opts, SSL_CTX_new, X509_STORE_new;
  unfold_monad.

(** The builder leaves alone everything but the two built objects. *)
Lemma update_opts_frame (W : World) (opts : opts_ref) (s : Machine) :
  let s' := snd (nc_client_tls_update_opts W opts s) in
  same_configuration (read_opts opts s) (read_opts opts s') /\
  read_opts (other_ref opts) s' = read_opts (other_ref opts) s /\
  tlsauth_ch s' = tlsauth_ch s /\ heap s' = heap s.
Proof.
  cbv zeta. unfold same_configuration. unfold_builder.
  destruct opts; simpl; builder_paths; repeat split.
Qed.

(** X7. [nc_client_tls_update_opts] writes only the two built objects of
    the structure it is handed: on every path, failing or not, the six
    paths and the two dirty flags of that structure, the whole structure
    of the other role, the role flag and the allocation state are what
    they were. *)
Theorem update_opts_writes_only_built_objects (W : World) (opts : opts_ref)
    (s : Machine) :
  let s' := snd (nc_client_tls_update_opts W opts s) in
  same_configuration (read_opts opts s) (read_opts opts s') /\
  read_opts (other_ref opts) s' = read_opts (other_ref opts) s /\
  tlsauth_ch s' = tlsauth_ch s /\ heap s' = heap s.
Proof. exact (update_opts_frame W opts s). Qed.

Lemma context_stale_test (o : nc_client_tls_opts) :
  context_stale o <->
  (match tls_ctx o with None => true | Some _ => false end
   || negb (tls_ctx_change o =? 0)) = true.
Proof.
  unfold context_stale. rewrite orb_true_iff, negb_true_iff, Z.eqb_neq.
  destruct (tls_ctx o); intuition congruence.
Qed.

Lemma is_null_false (p : c_str) : is_null p = false <-> p <> NULL.
Proof. destruct p; simpl; split; congruence. Qed.

Lemma store_stale_test (o : nc_client_tls_opts) :
  store_stale o <->
  (negb (crl_store_change o =? 0)
   || (match crl_store o with None => true | Some _ => false end
       && (negb (is_null (crl_file o)) || negb (is_null (crl_dir o)))))
  = true.
Proof.
  unfold store_stale.
  rewrite orb_true_iff, andb_true_iff, orb_true_iff, !negb_true_iff,
    Z.eqb_neq, !is_null_false.
  destruct (crl_store o); intuition congruence.
Qed.

(** X8. A stale context is never reused: when the structure has no
    context or its [tls_ctx_change] is set, the first thing
    [nc_client_tls_update_opts] does is free the old context and create a
    new one. *)
Theorem update_opts_rebuilds_stale_context (W : World) (opts : opts_ref)
    (s : Machine) :
  context_stale (read_opts opts s) ->
  exists rest,
    trace (snd (nc_client_tls_update_opts W opts s)) =
    trace s ++ Call c_SSL_CTX_free :: Call c_SSL_CTX_new :: rest.
Proof.
  intros H. apply context_stale_test in H. unfold_builder.
  destruct opts; simpl in *; rewrite H; simpl; builder_paths;
    rewrite <- ?app_assoc; simpl; eexists; reflexivity.
Qed.

Lemma update_opts_rebuilds_stale_context_witness :
  exists rest,
    trace (snd (nc_client_tls_update_opts world_no_cert ref_tls_opts
                  machine_configured)) =
    [] ++ Call c_SSL_CTX_free :: Call c_SSL_CTX_new :: rest.
Proof.
  apply (update_opts_rebuilds_stale_context world_no_cert ref_tls_opts
           machine_configured).
  right. discriminate.
Defined.

(** A setter that returns 0 has raised its flag. *)
Lemma setters_raise_their_flag_aux (opts : opts_ref) (s : Machine)
    (a b : option string) :
  (forall s1, _nc_client_tls_set_cert_key_paths a b opts s = (0, s1) ->
   tls_ctx_change (read_opts opts s1) = 1) /\
  (forall s1, _nc_client_tls_set_trusted_ca_paths a b opts s = (0, s1) ->
   tls_ctx_change (read_opts opts s1) = 1) /\
  (forall s1, _nc_client_tls_set_crl_paths a b opts s = (0, s1) ->
   crl_store_change (read_opts opts s1) = 1).
Proof.
  destruct s as [o1 o2 ch h t].
  split; [|split]; intros s1; unfold_setters; unfold_monad;
    destruct a, b, opts; split_heap h; simpl; intros E;
    try discriminate E; inversion E; subst; reflexivity.
Qed.

(** X9. A change made through a setter reaches the next connection: after
    any setter of the certificate/key or CA paths has returned 0, the next
    [nc_client_tls_update_opts] on that structure frees the context and
    creates a new one before anything else. *)
Theorem update_opts_after_setter_rebuilds_context (W : World)
    (opts : opts_ref) (s : Machine) (a b : option string) :
  (forall s1, _nc_client_tls_set_cert_key_paths a b opts s = (0, s1) ->
   exists rest,
     trace (snd (nc_client_tls_update_opts W opts s1)) =
     trace s1 ++ Call c_SSL_CTX_free :: Call c_SSL_CTX_new :: rest) /\
  (forall s1, _nc_client_tls_set_trusted_ca_paths a b opts s = (0, s1) ->
   exists rest,
     trace (snd (nc_client_tls_update_opts W opts s1)) =
     trace s1 ++ Call c_SSL_CTX_free :: Call c_SSL_CTX_new :: rest).
Proof.
  destruct (setters_raise_their_flag_aux opts s a b) as (H1 & H2 & _).
  split; intros s1 E; apply update_opts_rebuilds_stale_context; right;
    [rewrite (H1 s1 E) | rewrite (H2 s1 E)]; discriminate.
Qed.

Lemma update_opts_after_setter_rebuilds_context_witness :
  let s1 := snd (nc_client_tls_set_trusted_ca_paths (Some "ca.pem") None
                   machine_old) in
  exists rest,
    trace (snd (nc_client_tls_update_opts world_ok ref_tls_opts s1)) =
    trace s1 ++ Call c_SSL_CTX_free :: Call c_SSL_CTX_new :: rest.
Proof.
  cbv zeta.
  destruct (update_opts_after_setter_rebuilds_context world_ok ref_tls_opts
              machine_old (Some "ca.pem") None) as (_ & H).
  apply H. reflexivity.
Defined.

(** X10. A rebuilt context that [nc_client_tls_update_opts] reports good
    is complete: when the context was stale and the call returns 0, the
    structure holds a context with the verification callback installed,
    the certificate loaded from [cert_path], the private key loaded from
    [key_path], or from [cert_path] when no key path is set, and the
    trust anchors taken from [ca_file] and [ca_dir]. *)
Theorem update_opts_success_gives_complete_context (W : World)
    (opts : opts_ref) (s : Machine) :
  let o := read_opts opts s in
  let r := nc_client_tls_update_opts W opts s in
  context_stale o ->
  fst r = 0 ->
  tls_ctx (read_opts opts (snd r)) =
    Some (mkSSL_CTX (Some cb_tlsauth_verify_callback)
            (Some (cert_path o))
            (Some (if is_null (key_path o) then cert_path o else key_path o))
            (Some (ca_file o, ca_dir o))).
Proof.
  cbv zeta. intros H. apply context_stale_test in H. unfold_builder.
  destruct opts; simpl in *; rewrite H; simpl; builder_paths;
    intros E; try discriminate E; reflexivity.
Qed.

Lemma update_opts_success_gives_complete_context_witness :
  tls_ctx (tls_opts (snd (nc_client_tls_update_opts world_ok ref_tls_opts
                            machine_configured))) =
  Some (mkSSL_CTX (Some cb_tlsauth_verify_callback) (Some (Str "c.pem"))
          (Some (Str "c.pem")) (Some (Str "ca.pem", NULL))).
Proof.
  apply (update_opts_success_gives_complete_context world_ok ref_tls_opts
           machine_configured).
  - right. discriminate.
  - reflexivity.
Defined.

(** X11. A rebuilt CRL store that [nc_client_tls_update_opts] reports
    good matches the configuration: when the store was stale and the call
    returns 0, the structure holds a store with caching switched off that
    carries a file lookup for [crl_file] if that path is set, followed by
    a hashed-directory lookup for [crl_dir] if that path is set, and
    nothing else. *)
Theorem update_opts_success_gives_matching_store (W : World)
    (opts : opts_ref) (s : Machine) :
  let o := read_opts opts s in
  let r := nc_client_tls_update_opts W opts s in
  store_stale o ->
  fst r = 0 ->
  crl_store (read_opts opts (snd r)) = Some (mkStore 0 (lookups_for o)).
Proof.
  cbv zeta. intros H. apply store_stale_test in H. unfold lookups_for.
  unfold_builder. revert H.
  destruct opts; simpl;
    destruct (X509_STORE_new_ok W);
    destruct (is_null (crl_file _)) eqn:Ef, (is_null (crl_dir _)) eqn:Ed;
    simpl; intros H;
    builder_paths; intros E; try discriminate E; try reflexivity;
    try congruence; try (rewrite ?Ef, ?Ed in *; simpl in *; congruence).
Qed.

Lemma update_opts_success_gives_matching_store_witness :
  crl_store (read_opts ref_tls_opts
               (snd (nc_client_tls_update_opts world_ok ref_tls_opts
                       machine_with_crl_paths))) =
  Some (mkStore 0 [mkLookup X509_LOOKUP_file [Str "ca.crl"];
                   mkLookup X509_LOOKUP_hash_dir [Str "crls"]]).
Proof.
  assert (S : store_stale (read_opts ref_tls_opts machine_with_crl_paths)).
  { left. simpl. discriminate. }
  assert (R : fst (nc_client_tls_update_opts world_ok ref_tls_opts
                     machine_with_crl_paths) = 0) by reflexivity.
  exact (update_opts_success_gives_matching_store world_ok ref_tls_opts
           machine_with_crl_paths S R).
Defined.

(** A store that is not stale is left alone. *)
Lemma update_opts_keeps_fresh_store (W : World) (opts : opts_ref)
    (s : Machine) :
  ~ store_stale (read_opts opts s) ->
  crl_store (read_opts opts (snd (nc_client_tls_update_opts W opts s))) =
  crl_store (read_opts opts s).
Proof.
  intros H. rewrite store_stale_test in H. apply not_true_is_false in H.
  unfold_builder. revert H.
  destruct opts; simpl; intros H; builder_paths; try reflexivity; congruence.
Qed.

(** Once [SSL_CTX_new] succeeds the structure holds a context, however
    the rest of the build goes. *)
Lemma update_opts_leaves_context (W : World) (opts : opts_ref)
    (s : Machine) :
  SSL_CTX_new_ok W = true ->
  tls_ctx (read_opts opts (snd (nc_client_tls_update_opts W opts s)))
  <> None.
Proof.
  intros H. unfold_builder.
  destruct opts; simpl; rewrite H; simpl;
    [ destruct (tls_ctx (tls_opts s)) eqn:E
    | destruct (tls_ctx (tls_ch_opts s)) eqn:E ];
    simpl; builder_paths; rewrite ?E; congruence.
Qed.

(** X12. Without CRL paths revocation checking stays off: on a structure
    with no store, no CRL path and a clear [crl_store_change],
    [nc_client_tls_update_opts] leaves the store absent whatever it
    returns, and the callback run for that role afterwards accepts every
    certificate that passed pre-verification, leaving the state as it is
    (no lookup). *)
Theorem update_opts_without_crl_keeps_revocation_off (W W' : World)
    (opts : opts_ref) (s : Machine) (preverify_ok : Z)
    (x509_ctx : X509_STORE_CTX) :
  let o := read_opts opts s in
  let s' := snd (nc_client_tls_update_opts W opts s) in
  crl_store o = None -> crl_store_change o = 0 ->
  crl_file o = NULL -> crl_dir o = NULL ->
  active_ref s = opts ->
  preverify_ok <> 0 ->
  crl_store (read_opts opts s') = None /\
  tlsauth_verify_callback W' preverify_ok x509_ctx s' = ((1, x509_ctx), s').
Proof.
  cbv zeta. intros Hst Hflag Hf Hd Hrole Hpre.
  assert (Hfresh : ~ store_stale (read_opts opts s)).
  { unfold store_stale. intros [F | (_ & [F | F])]; congruence. }
  assert (Hnone := update_opts_keeps_fresh_store W opts s Hfresh).
  rewrite Hst in Hnone. split; [exact Hnone|].
  destruct (update_opts_frame W opts s) as (_ & _ & Hch & _).
  unfold tlsauth_verify_callback. unfold_monad.
  apply Z.eqb_neq in Hpre. rewrite Hpre.
  unfold active_ref in Hrole. rewrite Hch.
  destruct (negb (tlsauth_ch s =? 0)); subst opts; simpl in *;
    rewrite Hnone; reflexivity.
Qed.

Lemma update_opts_without_crl_keeps_revocation_off_witness :
  let s' := snd (nc_client_tls_update_opts world_ok ref_tls_opts
                   machine_configured) in
  crl_store (read_opts ref_tls_opts s') = None /\
  tlsauth_verify_callback (world_crl None true) 1 (mkStoreCtx cert5 0) s' =
    ((1, mkStoreCtx cert5 0), s').
Proof.
  cbv zeta.
  assert (Hpre : 1 <> 0) by discriminate.
  exact (update_opts_without_crl_keeps_revocation_off world_ok
           (world_crl None true) ref_tls_opts machine_configured 1
           (mkStoreCtx cert5 0) eq_refl eq_refl eq_refl eq_refl eq_refl
           Hpre).
Defined.

(** X13. A failed build is not retried while the flags are clear.  On a
    structure whose two dirty flags are clear and whose store is not
    stale, once a call of [nc_client_tls_update_opts] in which
    [SSL_CTX_new] succeeded has returned -1, the next call returns 0
    without doing anything, whatever the library would answer: the
    half-built context left by the failed call is taken as it is. *)
Theorem update_opts_does_not_retry_failed_build (W W' : World)
    (opts : opts_ref) (s : Machine) :
  let o := read_opts opts s in
  let r := nc_client_tls_update_opts W opts s in
  tls_ctx_change o = 0 ->
  crl_store_change o = 0 ->
  crl_store o <> None \/ (crl_file o = NULL /\ crl_dir o = NULL) ->
  SSL_CTX_new_ok W = true ->
  fst r = -1 ->
  nc_client_tls_update_opts W' opts (snd r) = (0, snd r).
Proof.
  cbv zeta. intros Hflag Hsflag Hstore Hnew _.
  destruct (update_opts_frame W opts s)
    as ((_ & _ & _ & _ & Ef & Ed & Ec & Es) & _).
  assert (Hfresh : ~ store_stale (read_opts opts s)).
  { unfold store_stale. intros [F | (N & [F | F])]; try congruence;
      destruct Hstore as [S | [A B]]; congruence. }
  apply update_opts_clean_is_noop.
  - apply update_opts_leaves_context, Hnew.
  - congruence.
  - congruence.
  - rewrite (update_opts_keeps_fresh_store W opts s Hfresh), Ef, Ed.
    exact Hstore.
Qed.

Lemma update_opts_does_not_retry_failed_build_witness :
  let r := nc_client_tls_update_opts world_no_cert ref_tls_ch_opts
             machine_zero in
  fst r = -1 /\
  ctx_certificate
    (match tls_ctx (tls_ch_opts (snd r)) with
     | Some c => c
     | None => mkSSL_CTX None None None None
     end) = None /\
  nc_client_tls_update_opts world_ok ref_tls_ch_opts (snd r) = (0, snd r).
Proof.
  cbv zeta.
  assert (R : fst (nc_client_tls_update_opts world_no_cert ref_tls_ch_opts
                     machine_zero) = -1) by (vm_compute; reflexivity).
  split; [exact R | split; [vm_compute; reflexivity |]].
  exact (update_opts_does_not_retry_failed_build world_no_cert world_ok
           ref_tls_ch_opts machine_zero eq_refl eq_refl
           (or_intror (conj eq_refl eq_refl)) eq_refl R).
Defined.

(** X14. [nc_client_tls_update_opts] returns 0 or -1 and reports every
    failure: when it returns 0 it has logged nothing, and when it returns
    -1 the last thing it did was log one error message, the only log line
    of the call. *)
Theorem update_opts_reports_every_failure (W : World) (opts : opts_ref)
    (s : Machine) :
  let r := nc_client_tls_update_opts W opts s in
  exists new,
    trace (snd r) = trace s ++ new /\
    ((fst r = 0 /\ calls new = new) \/
     (fst r = -1 /\
      exists pre msg, new = pre ++ [Log (ERR msg)] /\ calls pre = pre)).
Proof.
  cbv zeta. unfold_builder.
  destruct opts; simpl; builder_paths; rewrite <- ?app_assoc; simpl;
    eexists; (split; [try reflexivity; symmetry; apply app_nil_r|]);
    first [ left; split; reflexivity
          | right; split; [reflexivity|];
            first
              [ exists []; eexists; split; reflexivity
              | exists [Call c_SSL_CTX_free; Call c_SSL_CTX_new];
                eexists; split; reflexivity
              | exists [Call c_X509_STORE_free; Call c_X509_STORE_new];
                eexists; split; reflexivity
              | exists [Call c_SSL_CTX_free; Call c_SSL_CTX_new;
                        Call c_X509_STORE_free; Call c_X509_STORE_new];
                eexists; split; reflexivity ] ].
Qed.

(** ** Further properties of the verification callback *)

Ltac callback_paths :=
  repeat match goal with
         | |- context [if ?b then _ else _] => destruct b eqn:?; simpl
         | |- context [match ?x with None => _ | Some _ => _ end] =>
             destruct x eqn:?; simpl
         | |- context [let (_, _) := ?p in _] => destruct p eqn:?; simpl
         end.

(** X15. The callback only reads the configuration: on every path the
    two option structures, the role flag and the allocation state are what
    they were, the certificate under inspection is the same, and the trace
    has grown by at most three events (two lookups and one log line). *)
Theorem callback_never_touches_configuration (W : World) (s : Machine)
    (preverify_ok : Z) (x509_ctx : X509_STORE_CTX) :
  let r := tlsauth_verify_callback W preverify_ok x509_ctx s in
  tls_opts (snd r) = tls_opts s /\ tls_ch_opts (snd r) = tls_ch_opts s /\
  tlsauth_ch (snd r) = tlsauth_ch s /\ heap (snd r) = heap s /\
  current_cert (snd (fst r)) = current_cert x509_ctx /\
  exists new, trace (snd r) = trace s ++ new /\ (List.length new <= 3)%nat.
Proof.
  cbv zeta. unfold tlsauth_verify_callback. unfold_monad.
  simpl; callback_paths; rewrite <- ?app_assoc; simpl;
    repeat split; eexists; (split; [try reflexivity; symmetry; apply app_nil_r | simpl; lia]).
Qed.

(** X16. The callback has three outcomes.  It returns 1 with the
    verification context untouched, for a certificate that passed
    pre-verification; or it returns 0 with the context untouched, exactly
    when pre-verification had failed; or it returns 0 for a certificate
    that passed pre-verification, with a store configured, after setting
    one of its four error codes (CRL signature failure, missing
    next-update field, CRL expired, certificate revoked). *)
Theorem callback_verdict (W : World) (s : Machine)
    (preverify_ok : Z) (x509_ctx : X509_STORE_CTX) :
  let r := fst (tlsauth_verify_callback W preverify_ok x509_ctx s) in
  (fst r = 1 /\ snd r = x509_ctx /\ preverify_ok <> 0) \/
  (fst r = 0 /\ snd r = x509_ctx /\ preverify_ok = 0) \/
  (fst r = 0 /\ preverify_ok <> 0 /\ crl_store (active_opts s) <> None /\
   exists e, callback_error e /\ snd r = X509_STORE_CTX_set_error x509_ctx e).
Proof.
  cbv zeta. unfold tlsauth_verify_callback, active_opts, callback_error. unfold_monad.
  destruct (Z.eqb_spec preverify_ok 0) as [E | E]; simpl.
  - right; left. auto.
  - destruct (negb (tlsauth_ch s =? 0)); simpl;
    callback_paths; first [ left; repeat split; assumption
      | right; right; repeat split; try assumption; try congruence; eexists; split; [|reflexivity]; tauto ].
Qed.

(** X17. The verdict depends on the machine state only through the CRL
    store of the active role: two states whose active roles hold the same
    store give the same return value and the same verification context,
    whatever else differs (the other role, the paths, the flags, the
    heap, the trace). *)
Theorem callback_depends_on_active_store (W : World) (s1 s2 : Machine)
    (preverify_ok : Z) (x509_ctx : X509_STORE_CTX) :
  crl_store (active_opts s1) = crl_store (active_opts s2) ->
  fst (tlsauth_verify_callback W preverify_ok x509_ctx s1) =
  fst (tlsauth_verify_callback W preverify_ok x509_ctx s2).
Proof.
  unfold tlsauth_verify_callback, active_opts. unfold_monad. intros H.
  destruct (preverify_ok =? 0); [reflexivity|].
  destruct (negb (tlsauth_ch s1 =? 0)), (negb (tlsauth_ch s2 =? 0)); simpl in *;
    rewrite H; callback_paths; reflexivity.
Qed.

Lemma callback_depends_on_active_store_witness :
  fst (tlsauth_verify_callback (world_crl None true) 1 (mkStoreCtx cert5 0)
         machine_with_store) =
  fst (tlsauth_verify_callback (world_crl None true) 1 (mkStoreCtx cert5 0)
         (mkMachine opts_old opts_with_store 1 [false]
                    [Log (VRB "earlier")])).
Proof.
  apply callback_depends_on_active_store. reflexivity.
Defined.

(** X18. A certificate that is not listed is accepted: for a certificate
    that passed pre-verification, with a store configured, when the CRL
    under the subject name is absent or valid and the store finds no CRL
    under the issuer name, or one that lists no entry with the serial
    number of the certificate, the callback returns 1 with the context
    untouched, after exactly the two lookups and without logging. *)
Theorem callback_accepts_unrevoked (W : World) (s : Machine)
    (preverify_ok : Z) (x509_ctx : X509_STORE_CTX) (store : X509_STORE) :
  let cert := current_cert x509_ctx in
  let found := X509_STORE_get_by_subject W store (issuer_name cert) in
  let r := tlsauth_verify_callback W preverify_ok x509_ctx s in
  preverify_ok <> 0 ->
  crl_store (active_opts s) = Some store ->
  subject_crl_absent_or_valid W store cert ->
  (fst found <= 0 \/ snd found = None \/
   exists crl, snd found = Some crl /\
     forall revoked, In revoked (crl_revoked crl) ->
                     revoked_serialNumber revoked <> serialNumber cert) ->
  fst r = (1, x509_ctx) /\
  trace (snd r) =
    trace s ++ [Call (c_X509_STORE_get_by_subject (subject_name cert));
                Call (c_X509_STORE_get_by_subject (issuer_name cert))].
Proof.
  cbv zeta. intros Hpre Hstore Hsubj Hiss.
  apply Z.eqb_neq in Hpre.
  assert (Hscan : forall crl, snd (X509_STORE_get_by_subject W store
                     (issuer_name (current_cert x509_ctx))) = Some crl ->
            0 < fst (X509_STORE_get_by_subject W store
                     (issuer_name (current_cert x509_ctx))) ->
            revoked_scan (crl_revoked crl) (current_cert x509_ctx) = false).
  { intros crl Hc Hrc. destruct Hiss as [F | [F | (c & Hc' & Hall)]];
      [lia | congruence |].
    destruct (revoked_scan (crl_revoked crl) (current_cert x509_ctx)) eqn:E;
      [|reflexivity].
    apply revoked_scan_spec in E. destruct E as (x & Hin & Hx).
    assert (c = crl) by congruence. subst c. exfalso. exact (Hall x Hin Hx). }
  clear Hiss.
  unfold subject_crl_absent_or_valid in Hsubj.
  unfold_callback. rewrite Hpre.
  destruct (negb (tlsauth_ch s =? 0)); rewrite Hstore; simpl;
    destruct (X509_STORE_get_by_subject W store
                (subject_name (current_cert x509_ctx))) as [rc' own];
    simpl in Hsubj;
    destruct (X509_STORE_get_by_subject W store
                (issuer_name (current_cert x509_ctx))) as [rc crl];
    simpl in Hscan;
    destruct Hsubj as [[Hle | Hnone] | (c & t & Hsome & Hpos & Hsig & Hn & Ht)];
    [ apply Z.ltb_ge in Hle; rewrite Hle; destruct own
    | subst own; destruct (0 <? rc')
    | subst own; apply Z.ltb_lt in Hpos; rewrite Hpos;
      apply Z.leb_gt in Hsig; rewrite Hsig, Hn;
      destruct (X509_cmp_current_time W t <? 0) eqn:Ecmp;
      [apply X509_cmp_current_time_expired in Ecmp; contradiction|]
    | apply Z.ltb_ge in Hle; rewrite Hle; destruct own
    | subst own; destruct (0 <? rc')
    | subst own; apply Z.ltb_lt in Hpos; rewrite Hpos;
      apply Z.leb_gt in Hsig; rewrite Hsig, Hn;
      destruct (X509_cmp_current_time W t <? 0) eqn:Ecmp;
      [apply X509_cmp_current_time_expired in Ecmp; contradiction|] ].
  all: simpl; destruct (Z.ltb_spec 0 rc) as [Hrc | Hrc]; destruct crl as [crl|];
    simpl; rewrite ?(Hscan crl eq_refl Hrc); simpl; rewrite <- ?app_assoc;
    split; reflexivity.
Qed.

Lemma callback_accepts_unrevoked_witness :
  let x := mkStoreCtx (mkX509 "server" "CA" 7 (Some 42)) 0 in
  fst (tlsauth_verify_callback
         (world_crl (Some (crl_server (Some 200))) true) 1 x
         machine_with_store) = (1, x).
Proof.
  cbv zeta.
  assert (Hpre : 1 <> 0) by discriminate.
  apply (callback_accepts_unrevoked
           (world_crl (Some (crl_server (Some 200))) true)
           machine_with_store 1
           (mkStoreCtx (mkX509 "server" "CA" 7 (Some 42)) 0) store_dir
           Hpre eq_refl).
  - right. exists (crl_server (Some 200)), 200. simpl. repeat split; lia.
  - right. right. exists crl_CA. split; [reflexivity|].
    simpl. intros revoked [<- | [<- | []]]; discriminate.
Defined.

(** ** Further properties of the connection entry points *)

Ltac tidy_tests :=
  repeat match goal with
    | H : (_ =? _) = true |- _ => apply Z.eqb_eq in H
    | H : (_ =? _) = false |- _ => apply Z.eqb_neq in H
    | H : negb _ = false |- _ => apply negb_false_iff in H
    | H : negb _ = true |- _ => apply negb_true_iff in H
    end.

Ltac invert_options :=
  repeat match goal with
         | H : match tls_ctx ?o with Some _ => _ | None => _ end = Some _
           |- _ => destruct (tls_ctx o) eqn:?; [|discriminate H]
         | H : (if ?b then _ else _) = Some _ |- _ =>
             destruct b; inversion H; subst; clear H
         | H : Some _ = Some _ |- _ => inversion H; subst; clear H
         end.

(** X19. A session returned by [nc_connect_tls] is a running client
    session over OpenSSL for user "certificate-based".  Its host is the
    one asked for, or "localhost" when none or an empty one was given; its
    port is the one asked for, or [NC_PORT_TLS] when 0 was given.  Its TLS
    handle was made from the context the client structure holds, is bound
    to the socket opened to that host and port, retries automatically and
    has finished its handshake.  Its libyang context is the caller's,
    marked shared, or a new one.  The role flag is left at 0. *)
Theorem nc_connect_tls_session (W : World) (s : Machine)
    (host_arg : option string) (port_arg : Z) (ctx_arg : option ly_ctx)
    (session : nc_session) :
  let r := nc_connect_tls W host_arg port_arg ctx_arg s in
  fst r = Some session ->
  (status session = NC_STATUS_RUNNING /\ side session = NC_CLIENT /\
   ti_type session = NC_TI_OPENSSL /\
   username session = Some "certificate-based") /\
  (exists h tls,
     host session = Some h /\
     ((host_arg = Some h /\ h <> "") \/
      ((host_arg = None \/ host_arg = Some "") /\ h = "localhost")) /\
     ((port_arg <> 0 /\ port session = port_arg) \/
      (port_arg = 0 /\ port session = NC_PORT_TLS)) /\
     ti_tls session = Some tls /\
     tls_ctx (tls_opts (snd r)) = Some (ssl_ctx tls) /\
     ssl_fd tls = Some (nc_sock_connect W h (port session)) /\
     ssl_auto_retry tls = true /\ SSL_is_init_finished tls = true) /\
  (forall c, ctx_arg = Some c ->
     ctx session = Some c /\ flags_sharedctx session = true) /\
  (ctx_arg = None ->
     ctx session = ly_ctx_new W /\ flags_sharedctx session = false) /\
  tlsauth_ch (snd r) = 0.
Proof.
  cbv zeta. unfold nc_connect_tls.
  set (u := nc_client_tls_update_opts W ref_tls_opts). clearbody u.
  remember (match host_arg with
            | Some h0 => if (h0 =? "")%string then "localhost" else h0
            | None => "localhost"
            end) as h eqn:Hh.
  remember (if port_arg =? 0 then NC_PORT_TLS else port_arg) as p eqn:Hp.
  assert (Hhost : (host_arg = Some h /\ h <> "") \/
                  ((host_arg = None \/ host_arg = Some "") /\ h = "localhost")).
  { destruct host_arg as [h0|]; [|auto].
    destruct (String.eqb_spec h0 ""); subst; auto. }
  assert (Hport : (port_arg <> 0 /\ p = port_arg) \/
                  (port_arg = 0 /\ p = NC_PORT_TLS)).
  { destruct (Z.eqb_spec port_arg 0); subst; auto. }
  clear Hh Hp.
  unfold session_handshake, log_verify_result, do_SSL_connect, SSL_new,
    SSL_is_init_finished.
  unfold_monad. cbn.
  repeat (connect_step u; cbn).
  all: intros E; try discriminate E; inversion E; subst; clear E; cbn.
  all: tidy_tests.
  all: repeat match goal with
       | H : match tls_ctx ?o with Some _ => _ | None => _ end = Some _ |- _ =>
           destruct (tls_ctx o) eqn:?; [|discriminate H]
       | H : (if ?b then _ else _) = Some _ |- _ =>
           destruct b; inversion H; subst; clear H
       | H : Some _ = Some _ |- _ => inversion H; subst; clear H
       end.
  all: cbn.
  all: (split; [repeat split | split; [| split; [| split]]]).
  all: try (intros; split; congruence).
  all: try reflexivity.
  all: try discriminate.
  all: eexists; eexists; repeat split; try eassumption; try reflexivity.
  all: cbn; try (apply Z.eqb_eq; assumption).
Qed.

Lemma nc_connect_tls_session_witness :
  exists session,
    fst (nc_connect_tls world_ok None 0 None machine_configured)
      = Some session /\
    host session = Some "localhost" /\ port session = NC_PORT_TLS /\
    status session = NC_STATUS_RUNNING.
Proof.
  destruct (fst (nc_connect_tls world_ok None 0 None machine_configured))
    as [session|] eqn:E; [|vm_compute in E; discriminate E].
  exists session. split; [reflexivity|].
  destruct (nc_connect_tls_session world_ok machine_configured None 0 None
              session E)
    as ((St & _) & (h & tls & Hh & Hhost & Hport & _) & _).
  destruct Hhost as [[F _] | [_ ->]]; [discriminate F|].
  destruct Hport as [[F _] | [_ Hp]]; [exfalso; apply F; reflexivity|].
  auto.
Defined.

(** The events of the builder: log lines and the four calls that free
    and create the context and the store. *)
Lemma update_opts_events (W : World) (opts : opts_ref) (s : Machine) :
  exists new,
    trace (snd (nc_client_tls_update_opts W opts s)) = trace s ++ new /\
    forall e, In e new ->
      is_log e = true \/
      In e [Call c_SSL_CTX_free; Call c_SSL_CTX_new;
            Call c_X509_STORE_free; Call c_X509_STORE_new].
Proof.
  unfold_builder.
  destruct opts; simpl; builder_paths; rewrite <- ?app_assoc; simpl;
    eexists; (split; [try reflexivity; symmetry; apply app_nil_r|]);
    simpl; intros e He; intuition (subst; simpl; auto).
Qed.

(** Closes one path of a connection attempt from the frame of its
    builder [u]. *)
Ltac frame_path u Hu :=
  match goal with
  | E : u ?x = _ |- _ =>
      let Hc := fresh "Hc" in
      let Ho := fresh "Ho" in
      destruct (Hu x) as (Hc & Ho & _); rewrite E in Hc, Ho;
      simpl in Hc, Ho; split; [exact Ho | exact Hc]
  end.

(** X20. A connection attempt keeps to its own role.  [nc_connect_tls]
    leaves the call-home structure as it was, and
    [nc_accept_callhome_tls_sock] the client structure; in the structure
    of their own role neither changes a path or a dirty flag.
    [nc_connect_libssl] changes neither structure nor the role flag. *)
Theorem connect_never_touches_other_role (W : World) (s : Machine)
    (host_arg : option string) (port_arg sock : Z)
    (ctx_arg : option ly_ctx) (tls : option SSL) :
  (let s' := snd (nc_connect_tls W host_arg port_arg ctx_arg s) in
   tls_ch_opts s' = tls_ch_opts s /\
   same_configuration (tls_opts s) (tls_opts s')) /\
  (let s' := snd (nc_accept_callhome_tls_sock W sock host_arg port_arg
                    ctx_arg s) in
   tls_opts s' = tls_opts s /\
   same_configuration (tls_ch_opts s) (tls_ch_opts s')) /\
  (let s' := snd (nc_connect_libssl W tls ctx_arg s) in
   tls_opts s' = tls_opts s /\ tls_ch_opts s' = tls_ch_opts s /\
   tlsauth_ch s' = tlsauth_ch s).
Proof.
  cbv zeta. split; [|split].
  - unfold nc_connect_tls.
    assert (Hu := update_opts_frame W ref_tls_opts).
    set (u := nc_client_tls_update_opts W ref_tls_opts) in *. clearbody u.
    set (h := match host_arg with Some _ => _ | None => _ end).
    set (p := if port_arg =? 0 then _ else _).
    clearbody h p.
    unfold session_handshake, log_verify_result, do_SSL_connect, SSL_new.
    unfold_monad. cbn.
    repeat (connect_step u; cbn).
    all: try (split; [reflexivity | unfold same_configuration; repeat split]).
    all: frame_path u Hu.
  - unfold nc_accept_callhome_tls_sock, nc_connect_libssl.
    assert (Hu := update_opts_frame W ref_tls_ch_opts).
    set (u := nc_client_tls_update_opts W ref_tls_ch_opts) in *. clearbody u.
    unfold session_handshake, log_verify_result, do_SSL_connect, SSL_new,
      SSL_is_init_finished.
    unfold_monad. cbn.
    repeat (connect_step u; cbn).
    all: frame_path u Hu.
  - unfold nc_connect_libssl, session_handshake, SSL_is_init_finished.
    unfold_monad. cbn.
    repeat (connect_step tt; cbn). all: repeat split.
Qed.

(** An event of the builder is none of the calls of a connection
    attempt. *)
Ltac not_in_new Hev H :=
  first
    [ apply in_app_or in H; destruct H as [H | H];
      [ apply Hev in H; simpl in H; intuition discriminate
      | simpl in H; intuition discriminate ]
    | apply Hev in H; simpl in H; intuition discriminate
    | simpl in H; intuition discriminate ].

(** Exhibits the new events of one path, [u] being the builder. *)
Ltac expose_new u Hu :=
  try match goal with
      | E : u ?x = _ |- _ =>
          let new := fresh "new" in
          let Hnew := fresh "Hnew" in
          let Hev := fresh "Hev" in
          destruct (Hu x) as (new & Hnew & Hev); rewrite E in Hnew;
          simpl in Hnew; rewrite Hnew
      end;
  rewrite <- ?app_assoc; simpl; eexists;
  (split; [try reflexivity; symmetry; apply app_nil_r |]).

Ltac ends_with_last :=
  match goal with
  | |- exists pre, ?n ++ ?l = pre ++ _ =>
      exists (n ++ removelast l); cbn; rewrite <- ?app_assoc; reflexivity
  | |- exists pre, ?l = pre ++ _ => exists (removelast l); reflexivity
  end.




(** X22. [nc_accept_callhome_tls_sock] closes the socket it was handed
    exactly when it gives up before the TLS handshake: if [SSL_connect]
    was never called, no session is returned and the last thing done was
    [close(sock)]; once [SSL_connect] was called the function never
    closes the socket, whether the attempt succeeds or fails. *)
Theorem callhome_closes_socket_before_handshake_only (W : World)
    (s : Machine) (sock : Z) (host_arg : option string) (port_arg : Z)
    (ctx_arg : option ly_ctx) :
  let r := nc_accept_callhome_tls_sock W sock host_arg port_arg ctx_arg s in
  exists new,
    trace (snd r) = trace s ++ new /\
    (~ In (Call c_SSL_connect) new ->
     fst r = None /\ exists pre, new = pre ++ [Call (c_close sock)]) /\
    (In (Call c_SSL_connect) new -> ~ In (Call (c_close sock)) new).
Proof.
  cbv zeta. unfold nc_accept_callhome_tls_sock, nc_connect_libssl.
  assert (Hu := update_opts_events W ref_tls_ch_opts).
  set (u := nc_client_tls_update_opts W ref_tls_ch_opts) in *. clearbody u.
  unfold session_handshake, log_verify_result, do_SSL_connect, SSL_new,
    SSL_is_init_finished.
  unfold_monad. cbn.
  repeat (connect_step u; cbn).
  all: expose_new u Hu.
  all: split;
    [ intros Hno;
      first [ split; [reflexivity | ends_with_last]
            | exfalso; apply Hno; apply in_or_app; right; simpl; tauto ]
    | intros Hyes Hin;
      first [ match goal with Hev : _ |- _ => not_in_new Hev Hin end
            | match goal with Hev : _ |- _ => not_in_new Hev Hyes end ] ].
Qed.

Lemma callhome_closes_socket_before_handshake_only_witness :
  let r := nc_accept_callhome_tls_sock world_no_cert 4 None 0 None
             machine_zero in
  fst r = None /\ exists pre, trace (snd r) = pre ++ [Call (c_close 4)].
Proof.
  cbv zeta.
  destruct (callhome_closes_socket_before_handshake_only world_no_cert
              machine_zero 4 None 0 None)
    as (new & Htrace & H & _).
  assert (N : ~ In (Call c_SSL_connect)
                (trace (snd (nc_accept_callhome_tls_sock world_no_cert 4
                               None 0 None machine_zero)))).
  { vm_compute. intuition discriminate. }
  rewrite Htrace in N. simpl in N.
  destruct (H N) as (R & pre & P).
  split; [exact R|]. rewrite Htrace. simpl. exists pre. exact P.
Defined.

(** Closes a path on which a test contradicts [Hfail], a fact about every
    argument of the tested function. *)
Ltac refute_test Hfail :=
  match goal with
  | E : negb (_ ?t =? _) = false |- _ =>
      apply negb_false_iff, Z.eqb_eq in E; exfalso; exact (Hfail t E)
  | E : (_ ?t =? _) = true |- _ =>
      apply Z.eqb_eq in E; exfalso; exact (Hfail t E)
  end.

(** Closes a failing path on which some call was never made. *)
Ltac absent_path u Hu :=
  (split; [reflexivity|]); expose_new u Hu; intros Hin;
  first [ match goal with Hev : _ |- _ => not_in_new Hev Hin end
        | not_in_new I Hin ].

(** X23. A failed TLS handshake is fatal: in a world where [SSL_connect]
    never returns 1, [nc_connect_tls] and [nc_accept_callhome_tls_sock]
    return no session and never start the NETCONF handshake. *)
Theorem failed_tls_handshake_gives_no_session (W : World) (s : Machine)
    (sock : Z) (host_arg : option string) (port_arg : Z)
    (ctx_arg : option ly_ctx) :
  (forall tls, SSL_connect W tls <> 1) ->
  (let r := nc_connect_tls W host_arg port_arg ctx_arg s in
   fst r = None /\
   exists new, trace (snd r) = trace s ++ new /\
               ~ In (Call c_nc_handshake) new) /\
  (let r := nc_accept_callhome_tls_sock W sock host_arg port_arg ctx_arg s in
   fst r = None /\
   exists new, trace (snd r) = trace s ++ new /\
               ~ In (Call c_nc_handshake) new).
Proof.
  intros Hfail. cbv zeta. split.
  - unfold nc_connect_tls.
    assert (Hu := update_opts_events W ref_tls_opts).
    set (u := nc_client_tls_update_opts W ref_tls_opts) in *. clearbody u.
    set (h := match host_arg with Some _ => _ | None => _ end).
    set (p := if port_arg =? 0 then _ else _).
    clearbody h p.
    unfold session_handshake, log_verify_result, do_SSL_connect, SSL_new.
    unfold_monad. cbn.
    repeat (connect_step u; cbn).
    all: try (refute_test Hfail).
    all: absent_path u Hu.
  - unfold nc_accept_callhome_tls_sock, nc_connect_libssl.
    assert (Hu := update_opts_events W ref_tls_ch_opts).
    set (u := nc_client_tls_update_opts W ref_tls_ch_opts) in *. clearbody u.
    unfold session_handshake, log_verify_result, do_SSL_connect, SSL_new,
      SSL_is_init_finished.
    unfold_monad. cbn.
    repeat (connect_step u; cbn).
    all: try (refute_test Hfail).
    all: absent_path u Hu.
Qed.

Lemma failed_tls_handshake_gives_no_session_witness :
  fst (nc_connect_tls world_no_handshake (Some "example.net") 830 None
         machine_configured) = None /\
  fst (nc_accept_callhome_tls_sock world_no_handshake 4
         (Some "example.net") 830 None machine_configured) = None.
Proof.
  assert (Hfail : forall tls, SSL_connect world_no_handshake tls <> 1)
    by (intros tls; discriminate).
  destruct (failed_tls_handshake_gives_no_session world_no_handshake
              machine_configured 4 (Some "example.net") 830 None Hfail)
    as ((R1 & _) & (R2 & _)).
  exact (conj R1 R2).
Defined.

(** X24. A failed NETCONF handshake is fatal: in a world where
    [nc_handshake] never returns 0, none of [nc_connect_tls],
    [nc_connect_libssl] and [nc_accept_callhome_tls_sock] returns a
    session. *)
Theorem failed_netconf_handshake_gives_no_session (W : World) (s : Machine)
    (sock : Z) (host_arg : option string) (port_arg : Z)
    (ctx_arg : option ly_ctx) (tls : option SSL) :
  (forall session, nc_handshake W session <> 0) ->
  fst (nc_connect_tls W host_arg port_arg ctx_arg s) = None /\
  fst (nc_connect_libssl W tls ctx_arg s) = None /\
  fst (nc_accept_callhome_tls_sock W sock host_arg port_arg ctx_arg s) = None.
Proof.
  intros Hfail. split; [|split].
  - unfold nc_connect_tls.
    set (u := nc_client_tls_update_opts W ref_tls_opts) in *. clearbody u.
    set (h := match host_arg with Some _ => _ | None => _ end).
    set (p := if port_arg =? 0 then _ else _).
    clearbody h p.
    unfold session_handshake, log_verify_result, do_SSL_connect, SSL_new.
    unfold_monad. cbn.
    repeat (connect_step u; cbn).
    all: try (refute_test Hfail).
    all: reflexivity.
  - unfold nc_connect_libssl, session_handshake, SSL_is_init_finished.
    unfold_monad. cbn.
    repeat (connect_step tt; cbn).
    all: try (refute_test Hfail).
    all: reflexivity.
  - unfold nc_accept_callhome_tls_sock, nc_connect_libssl.
    set (u := nc_client_tls_update_opts W ref_tls_ch_opts) in *. clearbody u.
    unfold session_handshake, log_verify_result, do_SSL_connect, SSL_new,
      SSL_is_init_finished.
    unfold_monad. cbn.
    repeat (connect_step u; cbn).
    all: try (refute_test Hfail).
    all: reflexivity.
Qed.

Lemma failed_netconf_handshake_gives_no_session_witness :
  let W := mkWorld (fun _ _ => (0, None)) (fun _ _ => 1) 100
             true (fun _ => 1) (fun _ => 1) (fun _ _ => 1)
             true (fun _ => true) (fun _ _ => 1)
             true (fun _ _ => 3) (fun _ => 1) (fun _ => X509_V_OK)
             (Some 7%nat) (fun _ => 1) (fun _ => 0) in
  fst (nc_connect_tls W None 0 None machine_configured) = None /\
  fst (nc_accept_callhome_tls_sock W 4 None 0 None machine_configured)
    = None.
Proof.
  cbv zeta.
  match goal with
  | |- fst (nc_connect_tls ?W _ _ _ _) = None /\ _ =>
      assert (Hfail : forall session, nc_handshake W session <> 0)
        by (intros session; discriminate);
      destruct (failed_netconf_handshake_gives_no_session W
                  machine_configured 4 None 0 None None Hfail)
        as (R1 & _ & R3)
  end.
  exact (conj R1 R3).
Defined.

(** X25. A session returned by [nc_connect_libssl] is a running client
    session over OpenSSL that carries the very handle it was given, a
    handle that had finished its handshake; host, port and user name are
    left unset.  Its libyang context is the caller's, marked shared, or a
    new one. *)
Theorem nc_connect_libssl_session (W : World) (s : Machine)
    (tls : option SSL) (ctx_arg : option ly_ctx) (session : nc_session) :
  fst (nc_connect_libssl W tls ctx_arg s) = Some session ->
  (exists t, tls = Some t /\ SSL_is_init_finished t = true) /\
  ti_tls session = tls /\
  (status session = NC_STATUS_RUNNING /\ side session = NC_CLIENT /\
   ti_type session = NC_TI_OPENSSL) /\
  (host session = None /\ port session = 0 /\ username session = None) /\
  (forall c, ctx_arg = Some c ->
     ctx session = Some c /\ flags_sharedctx session = true) /\
  (ctx_arg = None ->
     ctx session = ly_ctx_new W /\ flags_sharedctx session = false).
Proof.
  unfold nc_connect_libssl, session_handshake, SSL_is_init_finished.
  unfold_monad. destruct tls as [t|]; cbn; [|discriminate].
  repeat (connect_step tt; cbn).
  all: intros E; try discriminate E; inversion E; subst; clear E; cbn.
  all: tidy_tests.
  all: (split; [eexists; split; [reflexivity | assumption] |]).
  all: repeat split; try congruence.
Qed.

Lemma nc_connect_libssl_session_witness :
  let t := mkSSL (mkSSL_CTX None None None None) (Some 3) true true in
  exists session,
    fst (nc_connect_libssl world_ok (Some t) (Some 9%nat) machine_zero)
      = Some session /\
    ti_tls session = Some t /\ ctx session = Some 9%nat /\
    flags_sharedctx session = true.
Proof.
  cbv zeta.
  destruct (fst (nc_connect_libssl world_ok
                   (Some (mkSSL (mkSSL_CTX None None None None) (Some 3)
                            true true))
                   (Some 9%nat) machine_zero))
    as [session|] eqn:E; [|vm_compute in E; discriminate E].
  exists session. split; [reflexivity|].
  destruct (nc_connect_libssl_session world_ok machine_zero _ _ session E)
    as (_ & T & _ & _ & C & _).
  destruct (C 9%nat eq_refl) as (C1 & C2). auto.
Defined.

(** X26. A session returned by [nc_accept_callhome_tls_sock] is a running
    client session over OpenSSL for user "certificate-based" whose host
    and port are the arguments as given, with no default put in their
    place.  Its TLS handle was made from the context the call-home
    structure holds, is bound to the socket that was handed in, retries
    automatically and has finished its handshake.  The role flag is left
    at 1. *)
Theorem nc_accept_callhome_session (W : World) (s : Machine) (sock : Z)
    (host_arg : option string) (port_arg : Z) (ctx_arg : option ly_ctx)
    (session : nc_session) :
  let r := nc_accept_callhome_tls_sock W sock host_arg port_arg ctx_arg s in
  fst r = Some session ->
  (status session = NC_STATUS_RUNNING /\ side session = NC_CLIENT /\
   ti_type session = NC_TI_OPENSSL /\
   username session = Some "certificate-based") /\
  (host session = host_arg /\ port session = port_arg) /\
  (exists tls,
     ti_tls session = Some tls /\
     tls_ctx (tls_ch_opts (snd r)) = Some (ssl_ctx tls) /\
     ssl_fd tls = Some sock /\
     ssl_auto_retry tls = true /\ SSL_is_init_finished tls = true) /\
  tlsauth_ch (snd r) = 1.
Proof.
  cbv zeta. unfold nc_accept_callhome_tls_sock, nc_connect_libssl.
  set (u := nc_client_tls_update_opts W ref_tls_ch_opts) in *. clearbody u.
  unfold session_handshake, log_verify_result, do_SSL_connect, SSL_new,
    SSL_is_init_finished.
  unfold_monad. cbn.
  repeat (connect_step u; cbn).
  all: intros E; try discriminate E; inversion E; subst; clear E; cbn.
  all: tidy_tests; invert_options; cbn.
  all: (split; [repeat split | split; [split; reflexivity | split]]).
  all: try reflexivity.
  all: eexists; repeat split; try eassumption; try reflexivity.
  all: cbn; try (apply Z.eqb_eq; assumption).
Qed.

Lemma nc_accept_callhome_session_witness :
  exists session,
    fst (nc_accept_callhome_tls_sock world_ok 4 None 0 None
           machine_configured) = Some session /\
    host session = None /\ port session = 0 /\
    tlsauth_ch (snd (nc_accept_callhome_tls_sock world_ok 4 None 0 None
                       machine_configured)) = 1.
Proof.
  destruct (fst (nc_accept_callhome_tls_sock world_ok 4 None 0 None
                   machine_configured))
    as [session|] eqn:E; [|vm_compute in E; discriminate E].
  exists session. split; [reflexivity|].
  destruct (nc_accept_callhome_session world_ok machine_configured 4 None 0
              None session E)
    as (_ & (Hh & Hp) & _ & Hch).
  auto.
Defined.
